(** * MetaTEDL: the meta-training loop and the OOD evaluation loop

    A shallow embedding of [trainer/meta.py] (class [MetaTrainer]) and of
    [OodDetection.py] (the aggregator [calculate_avg_std_ci95] and the
    module-level evaluation loop), with the properties the specification
    states about them.

    Numbers.  Python, NumPy and PyTorch floats are modelled by [pyfloat]:
    a finite value is an exact real number (rounding and overflow are not
    modelled), and the three non-finite values [inf], [-inf] and [nan] are
    kept apart, with the IEEE rules for how they combine.  Integers are [Z].

    Effects.  The trainer threads a state (learner, log dictionary, trace of
    backward passes and [torch.save] calls) through an error monad; a file
    system is the replay of the trace.  Console output ([print], [tqdm]) and
    the creation of directories are left out.

    Collaborators.  The network, the evidential losses, [count_acc], the
    optimizer, [get_task_data] and the functions of [metrics] live in other
    modules; they are parameters of the sections below, taken as pure
    functions. *)

From Stdlib Require Import Reals Lra Lia ZArith List Ascii String.
From stdpp Require Import base option list gmap strings pretty.

Local Open Scope Z_scope.

(** ** Floating-point values *)

Inductive pyfloat : Type :=
| Finite (r : R)
| PInf
| NInf
| NaN.

Definition is_finite (x : pyfloat) : bool :=
  match x with Finite _ => true | _ => false end.

Definition is_nan (x : pyfloat) : bool :=
  match x with NaN => true | _ => false end.

(** The infinity whose sign is the sign of [r]; [0 * inf] is [nan]. *)
Definition signed_inf (r : R) : pyfloat :=
  if Rlt_dec 0 r then PInf else if Rlt_dec r 0 then NInf else NaN.

Definition fneg (x : pyfloat) : pyfloat :=
  match x with
  | Finite a => Finite (- a)
  | PInf => NInf
  | NInf => PInf
  | NaN => NaN
  end.

Definition fadd (x y : pyfloat) : pyfloat :=
  match x, y with
  | NaN, _ | _, NaN => NaN
  | Finite a, Finite b => Finite (a + b)
  | PInf, NInf | NInf, PInf => NaN
  | PInf, _ | _, PInf => PInf
  | NInf, _ | _, NInf => NInf
  end.

Definition fsub (x y : pyfloat) : pyfloat := fadd x (fneg y).

Definition fmul (x y : pyfloat) : pyfloat :=
  match x, y with
  | NaN, _ | _, NaN => NaN
  | Finite a, Finite b => Finite (a * b)
  | Finite a, PInf | PInf, Finite a => signed_inf a
  | Finite a, NInf | NInf, Finite a => fneg (signed_inf a)
  | PInf, PInf | NInf, NInf => PInf
  | PInf, NInf | NInf, PInf => NInf
  end.

Definition fdiv (x y : pyfloat) : pyfloat :=
  match x, y with
  | NaN, _ | _, NaN => NaN
  | Finite a, Finite b =>
      if Req_dec_T b 0 then signed_inf a else Finite (a / b)
  | Finite _, (PInf | NInf) => Finite 0
  | PInf, Finite b => if Rlt_dec b 0 then NInf else PInf
  | NInf, Finite b => if Rlt_dec b 0 then PInf else NInf
  | (PInf | NInf), (PInf | NInf) => NaN
  end.

Definition fsqrt (x : pyfloat) : pyfloat :=
  match x with
  | Finite a => if Rlt_dec a 0 then NaN else Finite (sqrt a)
  | PInf => PInf
  | NInf | NaN => NaN
  end.

Definition flog (x : pyfloat) : pyfloat :=
  match x with
  | Finite a =>
      if Rlt_dec 0 a then Finite (ln a)
      else if Req_dec_T a 0 then NInf else NaN
  | PInf => PInf
  | NInf | NaN => NaN
  end.

(** Python's [x > y] on floats: false as soon as one side is [nan]. *)
Definition fgt (x y : pyfloat) : bool :=
  match x, y with
  | NaN, _ | _, NaN => false
  | Finite a, Finite b => if Rlt_dec b a then true else false
  | PInf, (Finite _ | NInf) => true
  | Finite _, NInf => true
  | _, _ => false
  end.

(** [float(n)] of a length. *)
Definition of_len {A} (l : list A) : pyfloat := Finite (INR (length l)).

(** ** NumPy reductions used by the aggregator *)

Definition np_sum (a : list pyfloat) : pyfloat :=
  fold_left fadd a (Finite 0).

Definition np_mean (a : list pyfloat) : pyfloat :=
  fdiv (np_sum a) (of_len a).

(** [np.std] with its default [ddof = 0]: the root of the mean of the
    squared deviations from the mean. *)
Definition np_std (a : list pyfloat) : pyfloat :=
  let arrmean := np_mean a in
  let x := map (fun v => fsub v arrmean) a in
  let x := map (fun d => fmul d d) x in
  fsqrt (fdiv (np_sum x) (of_len a)).

Definition np_sqrt : pyfloat -> pyfloat := fsqrt.

(** ** [OodDetection.calculate_avg_std_ci95] *)

Definition calculate_avg_std_ci95 (data : list pyfloat)
  : pyfloat * pyfloat * pyfloat :=
  let avg := np_mean data in
  let std := np_std data in
  let ci95 := fdiv (fmul (Finite 1.96) std) (np_sqrt (of_len data)) in
  (avg, std, ci95).

(** ** Python exceptions and the error monad *)

Inductive exn : Type :=
| KeyError (key : string)
| TypeError
| AttributeError
| RuntimeError
| AssertionError.

Inductive result (A : Type) : Type :=
| Ok (a : A)
| Raise (e : exn).
Arguments Ok {A} a.
Arguments Raise {A} e.

#[global] Instance result_ret : MRet result := fun A a => Ok a.
#[global] Instance result_bind : MBind result := fun A B k m =>
  match m with
  | Ok a => k a
  | Raise e => Raise e
  end.

(** A [for] loop whose body may raise: the state is threaded from left to
    right and the first exception ends the loop. *)
Fixpoint for_each {S X} (body : S → X → result S) (s : S) (xs : list X)
  : result S :=
  match xs with
  | [] => Ok s
  | x :: xs' => s' ← body s x; for_each body s' xs'
  end.

(** ** Integer tensors and the Python builtins used by the loops *)

(** [range(lo, hi)] *)
Definition py_range (lo hi : Z) : list Z :=
  map (fun i => lo + Z.of_nat i) (seq 0 (Z.to_nat (hi - lo))).

(** [torch.arange(n)]: the integers [0 .. n-1]; a negative bound is
    refused. *)
Definition torch_arange (n : Z) : result (list Z) :=
  if n <? 0 then Raise RuntimeError else Ok (py_range 0 n).

(** [t.repeat(k)] on a one-dimensional tensor: [k] copies of [t] laid end to
    end; a negative [k] is refused. *)
Definition tensor_repeat {A} (t : list A) (k : Z) : result (list A) :=
  if k <? 0 then Raise RuntimeError
  else Ok (concat (replicate (Z.to_nat k) t)).

(** [x[:p]] and [x[p:]] with Python's reading of a negative bound. *)
Definition slice_bound {A} (x : list A) (p : Z) : nat :=
  if p <? 0 then Z.to_nat (Z.of_nat (length x) + p) else Z.to_nat p.
Definition slice_to {A} (x : list A) (p : Z) : list A :=
  take (slice_bound x p) x.
Definition slice_from {A} (x : list A) (p : Z) : list A :=
  drop (slice_bound x p) x.

(** [str(n)] of an integer. *)
Definition py_str_int (n : Z) : string := pretty n.

(** [os.path.join(a, b)] for a relative [b]: a separator is put between
    the two unless [a] is empty or already ends with one. *)
Fixpoint ends_with_sep (a : string) : bool :=
  match a with
  | EmptyString => false
  | String c EmptyString => bool_decide (c = "/"%char)
  | String _ a' => ends_with_sep a'
  end.

Definition osp_join (a b : string) : string :=
  match a with
  | EmptyString => b
  | _ => if ends_with_sep a then a +:+ b else a +:+ "/" +:+ b
  end.

(** ['sep'.join(parts)] *)
Fixpoint py_join (sep : string) (parts : list string) : string :=
  match parts with
  | [] => EmptyString
  | [p] => p
  | p :: rest => p +:+ sep +:+ py_join sep rest
  end.

(** ** Float tensors of rank two: one row per example, one column per class *)

Abbreviation tensor := (list (list pyfloat)).

(** [t + c] for a Python scalar [c]. *)
Definition tensor_add_scalar (t : tensor) (c : pyfloat) : tensor :=
  map (map (fun x => fadd x c)) t.

(** [torch.sum(t, dim=1, keepdim=True)]: the sum of every row, kept as a
    column. *)
Definition torch_sum_dim1 (t : tensor) : list pyfloat := map np_sum t.

(** [t / s] where [s] is a column: every row is divided by its entry. *)
Definition tensor_div_column (t : tensor) (s : list pyfloat) : tensor :=
  zip_with (fun row d => map (fun x => fdiv x d) row) t s.

(** [torch.log(t)] *)
Definition torch_log (t : tensor) : tensor := map (map flog) t.

(** The two lines shared by the trainer and the OOD script:
    [alpha = evidence + 1] and
    [prob = alpha / torch.sum(alpha, dim=1, keepdim=True)]. *)
Definition alpha_of (evidence : tensor) : tensor :=
  tensor_add_scalar evidence (Finite 1).
Definition prob_of (alpha : tensor) : tensor :=
  tensor_div_column alpha (torch_sum_dim1 alpha).

(** ** Command-line options *)

(** [--loss_type], [choices=['mse', 'log', 'digamma']] *)
Inductive loss_choice : Type := Mse | Log | Digamma.

Definition loss_choice_str (c : loss_choice) : string :=
  match c with Mse => "mse" | Log => "log" | Digamma => "digamma" end.

Record Args : Type := {
  dataset : string;
  model_type : string;
  loss_type : loss_choice;
  meta_lr1 : pyfloat;
  meta_lr2 : pyfloat;
  train_num_batch : Z;
  val_num_batch : Z;
  max_epoch : Z;
  way : Z;
  shot : Z;
  train_query : Z;
  val_query : Z;
  update_step : Z;
  step_size : Z;
  gamma : pyfloat;
  save_path : string
}.

Definition set_save_path (a : Args) (p : string) : Args :=
  {| dataset := dataset a; model_type := model_type a;
     loss_type := loss_type a; meta_lr1 := meta_lr1 a;
     meta_lr2 := meta_lr2 a; train_num_batch := train_num_batch a;
     val_num_batch := val_num_batch a; max_epoch := max_epoch a;
     way := way a; shot := shot a; train_query := train_query a;
     val_query := val_query a; update_step := update_step a;
     step_size := step_size a; gamma := gamma a; save_path := p |}.

(** ** The evidential losses imported by the trainer

    [from models.EDL_loss import edl_mse_loss, edl_log_loss,
    edl_digamma_loss]: three function objects, told apart by name.  Their
    bodies are not part of the trainer; a call is described by its
    arguments. *)

Inductive edl_loss_fn : Type := edl_mse_loss | edl_log_loss | edl_digamma_loss.

Record loss_call : Type := {
  lc_alpha : tensor;
  lc_target : list Z;
  lc_epoch_num : Z;
  lc_num_classes : Z;
  lc_annealing_step : Z
}.

(** The data-fit formula that the configuration value names, as the
    specification words it: "one of three formulas selected by
    configuration". *)
Definition spec_selected_loss (c : loss_choice) : edl_loss_fn :=
  match c with
  | Mse => edl_mse_loss
  | Log => edl_log_loss
  | Digamma => edl_digamma_loss
  end.


(** Modelled from the spec: [utils.misc.Averager] is not among the sources;
    section 3 describes it as a mutable accumulator of scalar values that
    exposes "add" and "current mean".  The accumulator is the sequence of the
    values added so far. *)
Abbreviation Averager := (list pyfloat).
Definition Averager_new : Averager := [].
Definition Averager_add (a : Averager) (x : pyfloat) : Averager := a ++ [x].
Definition Averager_data (a : Averager) : pyfloat := np_mean a.

(** ** The training log, a Python [dict] *)

Inductive pyval : Type :=
| PyFloat (x : pyfloat)
| PyInt (n : Z)
| PyList (l : list pyfloat)
| PyVars (a : Args).

Abbreviation pydict := (gmap string pyval).

(** [d[k]] *)
Definition dict_get (d : pydict) (k : string) : result pyval :=
  match d !! k with
  | Some v => Ok v
  | None => Raise (KeyError k)
  end.

(** [d[k].append(x)] *)
Definition dict_append (d : pydict) (k : string) (x : pyfloat)
  : result pydict :=
  v ← dict_get d k;
  match v with
  | PyList l => Ok (<[k := PyList (l ++ [x])]> d)
  | _ => Raise AttributeError
  end.

(** [x > v] for a float [x] and a stored value [v]. *)
Definition float_gt (x : pyfloat) (v : pyval) : result bool :=
  match v with
  | PyFloat y => Ok (fgt x y)
  | PyInt n => Ok (fgt x (Finite (IZR n)))
  | _ => Raise TypeError
  end.

(** ** [trainer/meta.py]: class [MetaTrainer] *)

(** One batch of the data loader: [task[0]] is the stacked data of the
    episode, [task[1]] the dataset labels (unused by the trainer). *)
Record Task (image : Type) : Type := {
  task_data : list image;
  task_label : list Z
}.
Arguments task_data {image} _.
Arguments task_label {image} _.

(** What [torch.save] writes. *)
Inductive artifact (weights : Type) : Type :=
| Checkpoint (params : weights)
| TrainLog (trlog : pydict).
Arguments Checkpoint {weights} params.
Arguments TrainLog {weights} trlog.

(** The effects of the trainer that outlive an episode, in program order. *)
Inductive event (weights : Type) : Type :=
| EvBackward (loss : pyfloat)
| EvSave (path : string) (obj : artifact weights)
| EvLrStep.
Arguments EvBackward {weights} loss.
Arguments EvSave {weights} path obj.
Arguments EvLrStep {weights}.

(** The files left by a trace: every [torch.save] replaces what the path
    held. *)
Definition disk_write {weights} (d : gmap string (artifact weights))
    (e : event weights) : gmap string (artifact weights) :=
  match e with
  | EvSave p obj => <[p := obj]> d
  | _ => d
  end.
Definition disk {weights} (tr : list (event weights))
  : gmap string (artifact weights) :=
  fold_left disk_write tr ∅.

Record MetaTrainer : Type := {
  self_args : Args;
  self_loss : edl_loss_fn
}.

Section Trainer.

(** The collaborators of the trainer.  [learner] gathers the model, the
    optimizer and the scheduler; [outer_update] is
    [optimizer.zero_grad(); loss.backward(); optimizer.step()] for the
    loss that was computed from the given episode. *)
Context {image learner weights : Type}.
Variable state_dict : learner → weights.
Variable meta_train_forward :
  learner → bool → list image → list Z → list image → Z → tensor.
Variable edl_loss : edl_loss_fn → loss_call → pyfloat.
Variable count_acc : tensor → list Z → pyfloat.
Variable outer_update :
  learner → edl_loss_fn → list image → list Z → list image → loss_call →
  learner.
Variable lr_scheduler_step : learner → learner.
Variable py_str_float : pyfloat → string.

(** [MetaTrainer.__init__], up to the data sets, the model and the
    optimizer, which are handed to [meta_train] below. *)
Definition MetaTrainer_init (args : Args) : MetaTrainer :=
  let log_base_dir := "logs/" in
  let meta_base_dir := osp_join log_base_dir "meta" in
  let save_path1 :=
    py_join "_" [dataset args; model_type args; "MT-EDL-1010"] in
  let save_path2 :=
    "loss" +:+ loss_choice_str (loss_type args)
    +:+ "_lr1" +:+ py_str_float (meta_lr1 args)
    +:+ "_lr2" +:+ py_str_float (meta_lr2 args)
    +:+ "_batch" +:+ py_str_int (train_num_batch args)
    +:+ "_maxepoch" +:+ py_str_int (max_epoch args)
    +:+ "_shot" +:+ py_str_int (shot args)
    +:+ "_updatestep" +:+ py_str_int (update_step args) in
  let args :=
    set_save_path args
      (meta_base_dir +:+ "/" +:+ save_path1 +:+ "_" +:+ save_path2) in
  {| self_args := args; self_loss := edl_log_loss |}.

Record mt_state : Type := {
  st_learner : learner;
  st_trlog : pydict;
  st_trace : list (event weights)
}.

Definition emit (st : mt_state) (e : event weights) : mt_state :=
  {| st_learner := st_learner st; st_trlog := st_trlog st;
     st_trace := st_trace st ++ [e] |}.
Definition set_trlog (st : mt_state) (d : pydict) : mt_state :=
  {| st_learner := st_learner st; st_trlog := d;
     st_trace := st_trace st |}.
Definition set_learner (st : mt_state) (l : learner) : mt_state :=
  {| st_learner := l; st_trlog := st_trlog st;
     st_trace := st_trace st |}.

(** [save_model(name)] *)
Definition save_model (self : MetaTrainer) (st : mt_state) (name : string)
  : mt_state :=
  emit st (EvSave (osp_join (save_path (self_args self)) (name +:+ ".pth"))
                  (Checkpoint (state_dict (st_learner st)))).

(** The initial [trlog] of [meta_train]. *)
Definition trlog_init (self : MetaTrainer) : pydict :=
  <["args" := PyVars (self_args self)]>
  (<["train_loss" := PyList []]>
  (<["val_loss" := PyList []]>
  (<["train_acc" := PyList []]>
  (<["val_acc" := PyList []]>
  (<["max_acc" := PyFloat (Finite 0)]>
  (<["max_acc_epoch" := PyInt 0]> ∅)))))).

(** The forward part of one episode, shared by the training and the
    validation loop (lines 133-145 and 176-186). *)
Record episode : Type := {
  ep_support : list image;
  ep_query : list image;
  ep_alpha_q : tensor;
  ep_prob_q : tensor;
  ep_call : loss_call;
  ep_loss : pyfloat;
  ep_acc : pyfloat
}.

Definition run_episode (self : MetaTrainer) (l : learner) (training : bool)
    (label_support label_query : list Z) (epoch : Z) (task : Task image)
  : episode :=
  let args := self_args self in
  let data := task_data task in
  let p := shot args * way args in
  let data_support := slice_to data p in
  let data_query := slice_from data p in
  let evidence_q :=
    meta_train_forward l training data_support label_support data_query
      epoch in
  let alpha_q := alpha_of evidence_q in
  let prob_q := prob_of alpha_q in
  let call :=
    {| lc_alpha := alpha_q; lc_target := label_query;
       lc_epoch_num := epoch; lc_num_classes := way args;
       lc_annealing_step := 5 * max_epoch args |} in
  let loss := edl_loss (self_loss self) call in
  let acc := count_acc prob_q label_query in
  {| ep_support := data_support; ep_query := data_query;
     ep_alpha_q := alpha_q; ep_prob_q := prob_q; ep_call := call;
     ep_loss := loss; ep_acc := acc |}.

(** One iteration of the training loop (lines 132-157). *)
Definition train_step (self : MetaTrainer) (label_support label_query : list Z)
    (epoch : Z) (s : mt_state * Averager * Averager) (task : Task image)
  : mt_state * Averager * Averager :=
  let '(st, train_loss_averager, train_acc_averager) := s in
  let ep :=
    run_episode self (st_learner st) true label_support label_query epoch
      task in
  let train_loss_averager := Averager_add train_loss_averager (ep_loss ep) in
  let train_acc_averager := Averager_add train_acc_averager (ep_acc ep) in
  let st := emit st (EvBackward (ep_loss ep)) in
  let st :=
    set_learner st
      (outer_update (st_learner st) (self_loss self) (ep_support ep)
         label_support (ep_query ep) (ep_call ep)) in
  (st, train_loss_averager, train_acc_averager).

(** One iteration of the validation loop (lines 175-189). *)
Definition val_step (self : MetaTrainer) (l : learner)
    (label_support label_query : list Z) (epoch : Z)
    (s : Averager * Averager) (task : Task image) : Averager * Averager :=
  let '(val_loss_averager, val_acc_averager) := s in
  let ep := run_episode self l false label_support label_query epoch task in
  (Averager_add val_loss_averager (ep_loss ep),
   Averager_add val_acc_averager (ep_acc ep)).

(** The four averages of an epoch. *)
Record epoch_stats : Type := {
  es_train_loss : pyfloat;
  es_train_acc : pyfloat;
  es_val_loss : pyfloat;
  es_val_acc : pyfloat
}.

(** Lines 125-196: the training loop, then the validation loop. *)
Definition run_loops (self : MetaTrainer) (label_support label_query : list Z)
    (train_loader val_loader : Z → list (Task image))
    (st : mt_state) (epoch : Z) : mt_state * epoch_stats :=
  let '(st, train_loss_averager, train_acc_averager) :=
    fold_left (train_step self label_support label_query epoch)
      (train_loader epoch) (st, Averager_new, Averager_new) in
  let train_loss_averager := Averager_data train_loss_averager in
  let train_acc_averager := Averager_data train_acc_averager in
  let '(val_loss_averager, val_acc_averager) :=
    fold_left (val_step self (st_learner st) label_support label_query epoch)
      (val_loader epoch) (Averager_new, Averager_new) in
  let val_loss_averager := Averager_data val_loss_averager in
  let val_acc_averager := Averager_data val_acc_averager in
  (st, {| es_train_loss := train_loss_averager;
          es_train_acc := train_acc_averager;
          es_val_loss := val_loss_averager;
          es_val_acc := val_acc_averager |}).

(** Lines 200-204: "Update best saved model". *)
Definition update_best (self : MetaTrainer) (st : mt_state) (epoch : Z)
    (val_acc_averager : pyfloat) : result mt_state :=
  best ← dict_get (st_trlog st) "max_acc";
  better ← float_gt val_acc_averager best;
  if (better : bool) then
    let st :=
      set_trlog st (<["max_acc" := PyFloat val_acc_averager]> (st_trlog st)) in
    let st :=
      set_trlog st (<["max_acc_epoch" := PyInt epoch]> (st_trlog st)) in
    Ok (save_model self st "max_acc")
  else Ok st.

(** Lines 205-207: the periodic checkpoint. *)
Definition save_periodic (self : MetaTrainer) (st : mt_state) (epoch : Z)
  : mt_state :=
  if epoch `mod` 20 =? 0 then save_model self st ("epoch" +:+ py_str_int epoch)
  else st.

(** Lines 211-219: extend the log, save it, step the scheduler. *)
Definition update_logs (self : MetaTrainer) (st : mt_state) (es : epoch_stats)
  : result mt_state :=
  d ← dict_append (st_trlog st) "train_loss" (es_train_loss es);
  d ← dict_append d "train_acc" (es_train_acc es);
  d ← dict_append d "val_loss" (es_val_loss es);
  d ← dict_append d "val_acc" (es_val_acc es);
  let st := set_trlog st d in
  let st :=
    emit st (EvSave (osp_join (save_path (self_args self)) "trlog")
                    (TrainLog (st_trlog st))) in
  let st := set_learner st (lr_scheduler_step (st_learner st)) in
  Ok (emit st EvLrStep).

(** The body of [for epoch in range(1, self.args.max_epoch + 1)]. *)
Definition epoch_step (self : MetaTrainer) (label_support label_query : list Z)
    (train_loader val_loader : Z → list (Task image))
    (st : mt_state) (epoch : Z) : result mt_state :=
  let '(st, es) :=
    run_loops self label_support label_query train_loader val_loader st
      epoch in
  st ← update_best self st epoch (es_val_acc es);
  let st := save_periodic self st epoch in
  update_logs self st es.

(** The two label tensors built before the loop (lines 114-119). *)
Definition make_label_support (self : MetaTrainer) : result (list Z) :=
  classes ← torch_arange (way (self_args self));
  tensor_repeat classes (shot (self_args self)).
Definition make_label_query (self : MetaTrainer) : result (list Z) :=
  classes ← torch_arange (way (self_args self));
  tensor_repeat classes (train_query (self_args self)).

Definition mt_init (self : MetaTrainer) (l : learner) : mt_state :=
  {| st_learner := l; st_trlog := trlog_init self; st_trace := [] |}.

(** The first [n] epochs of [meta_train]. *)
Definition meta_train_upto (self : MetaTrainer)
    (train_loader val_loader : Z → list (Task image)) (l : learner) (n : Z)
  : result mt_state :=
  label_support ← make_label_support self;
  label_query ← make_label_query self;
  for_each
    (epoch_step self label_support label_query train_loader val_loader)
    (mt_init self l) (py_range 1 (n + 1)).

(** [MetaTrainer.meta_train] *)
Definition meta_train (self : MetaTrainer)
    (train_loader val_loader : Z → list (Task image)) (l : learner)
  : result mt_state :=
  meta_train_upto self train_loader val_loader l (max_epoch (self_args self)).

End Trainer.

(** ** [OodDetection.py]: the evaluation loop *)

(** The options the loop reads. *)
Record EvalArgs : Type := {
  ev_dataset : string;
  ev_task_num : Z;
  ev_way : Z;
  ev_shot : Z;
  ev_query : Z
}.

(** [torch.zeros_like(t)] and [torch.ones_like(t)] on a label tensor. *)
Definition zeros_like (t : list Z) : list Z := map (fun _ => 0) t.
Definition ones_like (t : list Z) : list Z := map (fun _ => 1) t.

(** [enumerate(xs, 1)] *)
Definition enumerate1 {A} (xs : list A) : list (Z * A) :=
  zip (py_range 1 (Z.of_nat (length xs) + 1)) xs.

(** What one iteration computes and prints. *)
Record task_report : Type := {
  r_task_id : Z;
  r_num_tasks : Z;
  r_evidence : tensor;
  r_ood_evidence : tensor;
  r_alpha : tensor;
  r_prob : tensor;
  r_acc : pyfloat;
  r_all_diff_ents : list pyfloat;
  r_all_mis : list pyfloat;
  r_all_precs : list pyfloat;
  r_all_labels : list Z;
  r_auroc_Dent : pyfloat;
  r_auroc_MI : pyfloat;
  r_auroc_precision : pyfloat;
  r_stats_Dent : pyfloat * pyfloat * pyfloat;
  r_stats_MI : pyfloat * pyfloat * pyfloat;
  r_stats_precision : pyfloat * pyfloat * pyfloat
}.

(** The three module-level lists and the lines printed so far. *)
Record ood_state : Type := {
  auroc_Dents : list pyfloat;
  auroc_MIs : list pyfloat;
  auroc_precisions : list pyfloat;
  reports : list task_report
}.

Definition ood_init : ood_state :=
  {| auroc_Dents := []; auroc_MIs := []; auroc_precisions := [];
     reports := [] |}.

Section OodDetection.

(** The collaborators of the script: the loaded model in evaluation mode
    ([ood_forward]), the task splitter of [utils.misc], and the functions
    of [metrics]. *)
Context {image : Type}.
Variable get_task_data :
  Task image → EvalArgs → list image * list Z * list image * list Z.
Variable ood_forward :
  list image → list Z → list image → list image → tensor * tensor.
Variable count_acc : tensor → list Z → pyfloat.
Variable compute_differential_entropy : tensor → list pyfloat.
Variable compute_mutual_information : tensor → list pyfloat.
Variable compute_precision : tensor → list pyfloat.
Variable ROC_OOD :
  list pyfloat → list pyfloat → list pyfloat → list Z →
  result (pyfloat * pyfloat * pyfloat).

Definition get_uncertainty_score (logits : tensor) (label : Z)
  : result (list pyfloat * list pyfloat * list pyfloat) :=
  if bool_decide (label = 0 ∨ label = 1) then
    let diff_ents := compute_differential_entropy logits in
    let mi := compute_mutual_information logits in
    let precs := compute_precision logits in
    Ok (diff_ents, mi, precs)
  else Raise AssertionError.

(** The body of the [for] loop (lines 110-150). *)
Definition ood_step (args : EvalArgs) (num_tasks : Z) (st : ood_state)
    (item : Z * (Task image * Task image)) : result ood_state :=
  let '(task_id, (task, ood_task)) := item in
  let '(data_support, label_support, data_query, label_query) :=
    get_task_data task args in
  let '(ood_data_support, ood_label_support, ood_data_query,
        ood_labels_query) := get_task_data ood_task args in
  let '(evidence, ood_evidence) :=
    ood_forward data_support label_support data_query ood_data_query in
  let alpha := alpha_of evidence in
  let prob := prob_of alpha in
  let log_alpha := torch_log alpha in
  let acc := count_acc prob label_query in
  '(diff_ents, mi, precs) ← get_uncertainty_score log_alpha 0;
  let labels := zeros_like label_query in
  let ood_alpha := tensor_add_scalar ood_evidence (Finite 1) in
  let ood_log_alpha := torch_log ood_alpha in
  '(ood_diff_ents, ood_mi, ood_precs) ←
    get_uncertainty_score ood_log_alpha 1;
  let ood_labels := ones_like ood_labels_query in
  let all_diff_ents := diff_ents ++ ood_diff_ents in
  let all_mis := mi ++ ood_mi in
  let all_precs := precs ++ ood_precs in
  let all_labels := labels ++ ood_labels in
  '(auroc_Dent, auroc_MI, auroc_precision) ←
    ROC_OOD all_diff_ents all_mis all_precs all_labels;
  let auroc_Dents := auroc_Dents st ++ [auroc_Dent] in
  let auroc_MIs := auroc_MIs st ++ [auroc_MI] in
  let auroc_precisions := auroc_precisions st ++ [auroc_precision] in
  let report :=
    {| r_task_id := task_id; r_num_tasks := num_tasks;
       r_evidence := evidence; r_ood_evidence := ood_evidence;
       r_alpha := alpha; r_prob := prob; r_acc := acc;
       r_all_diff_ents := all_diff_ents; r_all_mis := all_mis;
       r_all_precs := all_precs; r_all_labels := all_labels;
       r_auroc_Dent := auroc_Dent; r_auroc_MI := auroc_MI;
       r_auroc_precision := auroc_precision;
       r_stats_Dent := calculate_avg_std_ci95 auroc_Dents;
       r_stats_MI := calculate_avg_std_ci95 auroc_MIs;
       r_stats_precision := calculate_avg_std_ci95 auroc_precisions |} in
  Ok {| auroc_Dents := auroc_Dents; auroc_MIs := auroc_MIs;
        auroc_precisions := auroc_precisions;
        reports := reports st ++ [report] |}.

(** [for task_id, (task, ood_task) in
      enumerate(zip(dataloader, ood_dataloader), 1)] *)
Definition ood_eval (args : EvalArgs)
    (dataloader ood_dataloader : list (Task image)) : result ood_state :=
  for_each (ood_step args (Z.of_nat (length dataloader))) ood_init
    (enumerate1 (zip dataloader ood_dataloader)).

End OodDetection.

(** ** The statistics of the aggregator, as the specification words them *)

Definition rsum (xs : list R) : R := fold_right Rplus 0%R xs.

(** The arithmetic mean. *)
Definition spec_mean (xs : list R) : R := (rsum xs / INR (length xs))%R.

(** The population standard deviation: the root of the mean squared
    deviation from the mean. *)
Definition spec_population_std (xs : list R) : R :=
  sqrt (rsum (map (fun x => (x - spec_mean xs) * (x - spec_mean xs))%R xs)
        / INR (length xs)).

(** The 95% half width [1.96 * std / sqrt(n)]. *)
Definition spec_ci95 (xs : list R) : R :=
  (1.96 * spec_population_std xs / sqrt (INR (length xs)))%R.

(** ** Orders on [pyfloat] used in statements *)


(** ** Label layouts, as the specification words them *)

(** "Per-class block order": all labels of the first class, then all of the
    second, and so on, each class index repeated [k] times. *)
Definition spec_block_labels (way k : Z) : list Z :=
  flat_map (fun c => replicate (Z.to_nat k) c) (py_range 0 way).

(** ** Concrete configurations used in examples *)

Definition demo_str_float (x : pyfloat) : string := "0.001".

Definition demo_args (way shot train_query max_epoch : Z) : Args :=
  {| dataset := "miniImageNet"; model_type := "ResNet"; loss_type := Log;
     meta_lr1 := Finite 0.0001; meta_lr2 := Finite 0.001;
     train_num_batch := 1; val_num_batch := 1; max_epoch := max_epoch;
     way := way; shot := shot; train_query := train_query;
     val_query := train_query; update_step := 1; step_size := 10;
     gamma := Finite 0.5; save_path := EmptyString |}.

Definition demo_trainer (way shot train_query max_epoch : Z) : MetaTrainer :=
  MetaTrainer_init demo_str_float (demo_args way shot train_query max_epoch).

Definition mse_args : Args :=
  {| dataset := "miniImageNet"; model_type := "ResNet"; loss_type := Mse;
     meta_lr1 := Finite 0.0001; meta_lr2 := Finite 0.001;
     train_num_batch := 1; val_num_batch := 1; max_epoch := 1;
     way := 2; shot := 1; train_query := 1;
     val_query := 1; update_step := 1; step_size := 10;
     gamma := Finite 0.5; save_path := EmptyString |}.

(** ** The contents of the training log, read as a record

    [log_view] lists what the seven entries of [trlog] hold;
    [dict_of_view] is the dictionary with exactly these entries. *)

Record log_view : Type := {
  lv_args : Args;
  lv_train_loss : list pyfloat;
  lv_val_loss : list pyfloat;
  lv_train_acc : list pyfloat;
  lv_val_acc : list pyfloat;
  lv_max_acc : pyfloat;
  lv_max_acc_epoch : Z
}.

Definition dict_of_view (v : log_view) : pydict :=
  <["args" := PyVars (lv_args v)]>
  (<["train_loss" := PyList (lv_train_loss v)]>
  (<["val_loss" := PyList (lv_val_loss v)]>
  (<["train_acc" := PyList (lv_train_acc v)]>
  (<["val_acc" := PyList (lv_val_acc v)]>
  (<["max_acc" := PyFloat (lv_max_acc v)]>
  (<["max_acc_epoch" := PyInt (lv_max_acc_epoch v)]> ∅)))))).

Definition view_init (args : Args) : log_view :=
  {| lv_args := args; lv_train_loss := []; lv_val_loss := [];
     lv_train_acc := []; lv_val_acc := [];
     lv_max_acc := Finite 0; lv_max_acc_epoch := 0 |}.

(** The keys of the log artifact named by the specification. *)
Definition spec_trlog_keys : gset string :=
  {[ "args"; "train_loss"; "val_loss"; "train_acc"; "val_acc"; "max_acc";
     "max_acc_epoch" ]}.

(** The paths the trainer writes to. *)
Definition max_acc_path (self : MetaTrainer) : string :=
  osp_join (save_path (self_args self)) ("max_acc" +:+ ".pth").
Definition epoch_ckpt_path (self : MetaTrainer) (epoch : Z) : string :=
  osp_join (save_path (self_args self))
    (("epoch" +:+ py_str_int epoch) +:+ ".pth").
Definition trlog_path (self : MetaTrainer) : string :=
  osp_join (save_path (self_args self)) "trlog".

Definition view_set_best (v : log_view) (acc : pyfloat) (epoch : Z) : log_view :=
  {| lv_args := lv_args v; lv_train_loss := lv_train_loss v;
     lv_val_loss := lv_val_loss v; lv_train_acc := lv_train_acc v;
     lv_val_acc := lv_val_acc v; lv_max_acc := acc;
     lv_max_acc_epoch := epoch |}.

Definition view_append (v : log_view) (train_loss train_acc val_loss val_acc : pyfloat)
  : log_view :=
  {| lv_args := lv_args v;
     lv_train_loss := lv_train_loss v ++ [train_loss];
     lv_val_loss := lv_val_loss v ++ [val_loss];
     lv_train_acc := lv_train_acc v ++ [train_acc];
     lv_val_acc := lv_val_acc v ++ [val_acc];
     lv_max_acc := lv_max_acc v;
     lv_max_acc_epoch := lv_max_acc_epoch v |}.

Section TrainerRuns.

(** The same collaborators as in [Trainer]. *)
Context {image learner weights : Type}.
Variable state_dict : learner → weights.
Variable meta_train_forward :
  learner → bool → list image → list Z → list image → Z → tensor.
Variable edl_loss : edl_loss_fn → loss_call → pyfloat.
Variable count_acc : tensor → list Z → pyfloat.
Variable outer_update :
  learner → edl_loss_fn → list image → list Z → list image → loss_call →
  learner.

(** The training loop of one epoch, unrolled: the learner it ends with, and
    the loss and the accuracy of every episode in order. *)
Fixpoint train_run (self : MetaTrainer) (label_support label_query : list Z)
    (epoch : Z) (l : learner) (tasks : list (Task image))
  : learner * list pyfloat * list pyfloat :=
  match tasks with
  | [] => (l, [], [])
  | task :: tasks' =>
      let ep :=
        run_episode meta_train_forward edl_loss count_acc self l true
          label_support label_query epoch task in
      let l' :=
        outer_update l (self_loss self) (ep_support ep) label_support
          (ep_query ep) (ep_call ep) in
      let '(lf, losses, accs) :=
        train_run self label_support label_query epoch l' tasks' in
      (lf, ep_loss ep :: losses, ep_acc ep :: accs)
  end.

(** The losses and accuracies of the validation loop of one epoch. *)
Definition val_run (self : MetaTrainer) (label_support label_query : list Z)
    (epoch : Z) (l : learner) (tasks : list (Task image))
  : list pyfloat * list pyfloat :=
  (map (fun task =>
          ep_loss (run_episode meta_train_forward edl_loss count_acc self l
                     false label_support label_query epoch task)) tasks,
   map (fun task =>
          ep_acc (run_episode meta_train_forward edl_loss count_acc self l
                    false label_support label_query epoch task)) tasks).

(** What an epoch leaves in the log, given the log before it, the episode
    losses and accuracies of its two loops. *)
Definition epoch_view (v : log_view) (epoch : Z)
    (train_losses train_accs val_losses val_accs : list pyfloat) : log_view :=
  let val_acc := np_mean val_accs in
  let v := if fgt val_acc (lv_max_acc v) then view_set_best v val_acc epoch
           else v in
  view_append v (np_mean train_losses) (np_mean train_accs)
    (np_mean val_losses) val_acc.

(** The events of an epoch after its two loops: the "max_acc" checkpoint when
    the validation accuracy improved, the periodic checkpoint every twentieth
    epoch, the log, and the scheduler step. *)
Definition epoch_tail_events (self : MetaTrainer) (l : learner) (v : log_view)
    (epoch : Z) (val_acc : pyfloat) (v' : log_view) : list (event weights) :=
  (if fgt val_acc (lv_max_acc v)
   then [EvSave (max_acc_path self) (Checkpoint (state_dict l))] else [])
  ++ (if epoch `mod` 20 =? 0
      then [EvSave (epoch_ckpt_path self epoch) (Checkpoint (state_dict l))]
      else [])
  ++ [EvSave (trlog_path self) (TrainLog (dict_of_view v')); EvLrStep].

(** The state an epoch ends in, from the state [st] and the log contents [v]
    it started with. *)
Definition epoch_result (lr_scheduler_step : learner → learner)
    (self : MetaTrainer) (label_support label_query : list Z)
    (train_loader val_loader : Z → list (Task image))
    (st : @mt_state learner weights) (v : log_view) (epoch : Z)
  : @mt_state learner weights :=
  let '(lf, losses, accs) :=
    train_run self label_support label_query epoch (st_learner st)
      (train_loader epoch) in
  let '(vlosses, vaccs) :=
    val_run self label_support label_query epoch lf (val_loader epoch) in
  let v' := epoch_view v epoch losses accs vlosses vaccs in
  {| st_learner := lr_scheduler_step lf;
     st_trlog := dict_of_view v';
     st_trace :=
       st_trace st ++ map EvBackward losses
       ++ epoch_tail_events self lf v epoch (np_mean vaccs) v' |}.

(** The contents of the log at the end of that epoch. *)
Definition epoch_result_view (self : MetaTrainer)
    (label_support label_query : list Z)
    (train_loader val_loader : Z → list (Task image))
    (l : learner) (v : log_view) (epoch : Z) : log_view :=
  let '(lf, losses, accs) :=
    train_run self label_support label_query epoch l (train_loader epoch) in
  let '(vlosses, vaccs) :=
    val_run self label_support label_query epoch lf (val_loader epoch) in
  epoch_view v epoch losses accs vlosses vaccs.

End TrainerRuns.

(** ** A small concrete run, for the examples

    Items are numbers, the learner carries no state, and the stand-in for
    the evidential losses adds up the entries of [alpha]; like the real
    losses it is [nan] as soon as [alpha] holds a [nan]. *)

Definition demo_state_dict (l : unit) : unit := l.

(** A network that returns zero evidence for two classes. *)
Definition demo_forward (l : unit) (training : bool) (support : list nat)
    (label_support : list Z) (query : list nat) (epoch : Z) : tensor :=
  map (fun _ => [Finite 0; Finite 0]) query.

(** A network whose outputs have diverged to [nan]. *)
Definition nan_forward (l : unit) (training : bool) (support : list nat)
    (label_support : list Z) (query : list nat) (epoch : Z) : tensor :=
  map (fun _ => [NaN; NaN]) query.

Definition demo_loss (f : edl_loss_fn) (call : loss_call) : pyfloat :=
  np_sum (map np_sum (lc_alpha call)).

Definition demo_count_acc (prob : tensor) (label : list Z) : pyfloat :=
  Finite 0.

Definition demo_update (l : unit) (f : edl_loss_fn) (support : list nat)
    (label_support : list Z) (query : list nat) (call : loss_call) : unit := l.

Definition demo_lr_step (l : unit) : unit := l.

Definition demo_loader (epoch : Z) : list (Task nat) :=
  [{| task_data := [10; 11; 12; 13]%nat; task_label := [7; 3; 7; 3] |}].

(** A 2-way 1-shot trainer with one query per class and one epoch. *)
Definition demo_run (forward : unit → bool → list nat → list Z → list nat →
                               Z → tensor) (n : Z)
  : result (@mt_state unit unit) :=
  meta_train_upto demo_state_dict forward demo_loss demo_count_acc demo_update
    demo_lr_step (demo_trainer 2 1 1 1) demo_loader demo_loader tt n.

(** ** Statements about the OOD loop *)

(** The values that are not [nan]: "only tasks with defined AUROC values",
    as the specification words the aggregation. *)
Definition spec_defined_only (values : list pyfloat) : list pyfloat :=
  filter (fun x => is_nan x = false) values.

(** Two results of [get_task_data] that agree on the query data and the
    query labels (they may differ in the support data and labels). *)
Definition same_query {image : Type}
    (a b : list image * list Z * list image * list Z) : Prop :=
  snd (fst a) = snd (fst b) ∧ snd a = snd b.

(** ** A small concrete evaluation, for the examples *)

(** Splits a batch after the first [shot * way] items. *)
Definition demo_get_task_data (task : Task nat) (args : EvalArgs)
  : list nat * list Z * list nat * list Z :=
  let p := ev_shot args * ev_way args in
  (slice_to (task_data task) p, slice_to (task_label task) p,
   slice_from (task_data task) p, slice_from (task_label task) p).

Definition demo_ood_forward (data_support : list nat) (label_support : list Z)
    (data_query ood_data_query : list nat) : tensor * tensor :=
  (map (fun _ => [Finite 0; Finite 0]) data_query,
   map (fun _ => [Finite 0; Finite 0]) ood_data_query).

Definition demo_metric (logits : tensor) : list pyfloat := map np_sum logits.

(** A stand-in for [metrics.ROC_OOD]: [nan] for every statistic when the
    labels do not hold both classes, 0.8 otherwise. *)
Definition demo_ROC_OOD (diff_ents mis precs : list pyfloat) (labels : list Z)
  : result (pyfloat * pyfloat * pyfloat) :=
  if existsb (Z.eqb 0) labels && existsb (Z.eqb 1) labels
  then Ok (Finite 0.8, Finite 0.8, Finite 0.8)
  else Ok (NaN, NaN, NaN).

Definition demo_eval_args : EvalArgs :=
  {| ev_dataset := "miniImageNet"; ev_task_num := 2; ev_way := 2;
     ev_shot := 1; ev_query := 1 |}.

Definition demo_ood_eval (dataloader ood_dataloader : list (Task nat))
  : result ood_state :=
  ood_eval demo_get_task_data demo_ood_forward demo_count_acc demo_metric
    demo_metric demo_metric demo_ROC_OOD demo_eval_args dataloader
    ood_dataloader.

(** A full 2-way 1-shot task with one query per class, and a task that has
    its two support items but no query. *)
Definition full_task : Task nat :=
  {| task_data := [10; 11; 12; 13]%nat; task_label := [7; 3; 7; 3] |}.
Definition no_query_task : Task nat :=
  {| task_data := [20; 21]%nat; task_label := [5; 9] |}.

(** An OOD task with the query of [full_task] and another support. *)
Definition other_support_task : Task nat :=
  {| task_data := [90; 91; 12; 13]%nat; task_label := [1; 2; 7; 3] |}.

(** What holds of the state all along the loop. *)
Definition ood_inv (st : ood_state) : Prop :=
  auroc_Dents st = map r_auroc_Dent (reports st)
  ∧ auroc_MIs st = map r_auroc_MI (reports st)
  ∧ auroc_precisions st = map r_auroc_precision (reports st)
  ∧ ∀ k r, reports st !! k = Some r →
      r_stats_Dent r
      = calculate_avg_std_ci95 (map r_auroc_Dent (take (S k) (reports st)))
      ∧ r_stats_MI r
        = calculate_avg_std_ci95 (map r_auroc_MI (take (S k) (reports st)))
      ∧ r_stats_precision r
        = calculate_avg_std_ci95
            (map r_auroc_precision (take (S k) (reports st))).


(** * The remaining functions of the two scripts and of the backbone *)

(** ** Errors of the Python builtins and of tensor indexing *)

Inductive builtin_error : Type :=
| IndexError
| ZeroDivisionError
| NameError.

Inductive checked (A : Type) : Type :=
| Done (a : A)
| Fails (e : builtin_error).
Arguments Done {A} a.
Arguments Fails {A} e.

#[global] Instance checked_ret : MRet checked := fun A a => Done a.
#[global] Instance checked_bind : MBind checked := fun A B k m =>
  match m with
  | Done a => k a
  | Fails e => Fails e
  end.

(** [x <= y] on floats: false as soon as one side is [nan]. *)
Definition fle (x y : pyfloat) : bool :=
  match x, y with
  | NaN, _ | _, NaN => false
  | Finite a, Finite b => if Rle_dec a b then true else false
  | NInf, _ => true
  | _, PInf => true
  | _, _ => false
  end.

(** ** [trainer/meta.py]: [acc_with_threshold] *)

(** The entries of [x] at the positions where [mask] is [True]. *)
Fixpoint select {A} (x : list A) (mask : list bool) : list A :=
  match x, mask with
  | a :: x', b :: mask' => if b then a :: select x' mask' else select x' mask'
  | _, _ => []
  end.

(** [x[mask]] for a boolean tensor [mask]: the shapes must agree. *)
Definition mask_index {A} (x : list A) (mask : list bool) : checked (list A) :=
  if decide (length x = length mask) then Done (select x mask)
  else Fails IndexError.

(** [int(torch.sum(torch.eq(a, b).float()))] *)
Definition count_equal (a b : list Z) : Z :=
  Z.of_nat (length (filter (fun m => m = true) (zip_with Z.eqb a b))).

Definition acc_with_threshold (preds labels : list Z)
    (uncertainty : list pyfloat) (threshold : pyfloat) : checked (Z * Z) :=
  let under_threshold_index := map (fun u => fle u threshold) uncertainty in
  preds_filter ← mask_index preds under_threshold_index;
  labels_filter ← mask_index labels under_threshold_index;
  let filter_nums := Z.of_nat (length labels_filter) in
  if filter_nums =? 0 then Done (0, 0)
  else
    let acc_nums := count_equal preds_filter labels_filter in
    Done (acc_nums, filter_nums).

(** ** [MetaTrainer.__init__]: loading the pre-trained encoder (lines 86-96) *)

Section Pretrained.

(** Parameter tensors. *)
Context {V : Type}.

(** [{prefix + k: v for k, v in d.items()}] *)
Definition prefix_keys (prefix : string) (d : gmap string V) : gmap string V :=
  kmap (String.append prefix) d.

(** [{k: v for k, v in d.items() if k in model_dict}] *)
Definition keep_known (d model_dict : gmap string V) : gmap string V :=
  filter (fun kv => is_Some (model_dict !! kv.1)) d.

(** [d.update(e)]: the entries of [e] replace those of [d]. *)
Definition dict_update (d e : gmap string V) : gmap string V := e ∪ d.

(** The dictionary handed to [load_state_dict]. *)
Definition merge_pretrained (pretrained_dict model_dict : gmap string V)
  : gmap string V :=
  let meta_pretrained_dict := prefix_keys "encoder." pretrained_dict in
  let meta_pretrained_dict := keep_known meta_pretrained_dict model_dict in
  let pre_pretrained_dict := prefix_keys "pre_encoder." pretrained_dict in
  let pre_pretrained_dict := keep_known pre_pretrained_dict model_dict in
  let model_dict := dict_update model_dict meta_pretrained_dict in
  dict_update model_dict pre_pretrained_dict.

(** [model.load_state_dict(d)] with its default [strict=True], for a model
    whose parameters are named [expected]: a missing or an unexpected key is
    an error. *)
Definition load_state_dict (expected : gset string) (d : gmap string V)
  : result (gmap string V) :=
  if decide (dom d = expected) then Ok d else Raise RuntimeError.

(** Lines 88-96, for a model whose [state_dict()] is [model_dict]. *)
Definition load_pretrained (pretrained_dict model_dict : gmap string V)
  : result (gmap string V) :=
  load_state_dict (dom model_dict)
    (merge_pretrained pretrained_dict model_dict).

End Pretrained.

(** ** [OodDetection.py]: where the meta-trained model is loaded from
    (lines 91-100) *)

(** The two assignments to [args.save_path]; the file is read from the value
    the second one leaves. *)
Definition ood_checkpoint_path (py_str_float : pyfloat → string) (args : Args)
    (pretrain_evidence_weight : string) : string :=
  let save_path1 :=
    py_join "_" [dataset args; model_type args;
                 "MT-EDL-" +:+ pretrain_evidence_weight] in
  let save_path2 :=
    "loss" +:+ loss_choice_str (loss_type args)
    +:+ "_lr1" +:+ py_str_float (meta_lr1 args)
    +:+ "_lr2" +:+ py_str_float (meta_lr2 args)
    +:+ "_batch" +:+ py_str_int (train_num_batch args)
    +:+ "_maxepoch" +:+ py_str_int (max_epoch args)
    +:+ "_shot" +:+ py_str_int (shot args)
    +:+ "_updatestep" +:+ py_str_int (update_step args) in
  let save_path :=
    "../MetaTEDL-logs/meta" +:+ "/" +:+ save_path1 +:+ "_" +:+ save_path2 in
  let save_path :=
    "checkpoints/meta/" +:+ dataset args +:+ "-" +:+ py_str_int (shot args)
    +:+ "-shot/max_acc.pth" in
  save_path.

(** [args] with another [--loss_type]. *)
Definition set_loss_type (a : Args) (c : loss_choice) : Args :=
  {| dataset := dataset a; model_type := model_type a;
     loss_type := c; meta_lr1 := meta_lr1 a;
     meta_lr2 := meta_lr2 a; train_num_batch := train_num_batch a;
     val_num_batch := val_num_batch a; max_epoch := max_epoch a;
     way := way a; shot := shot a; train_query := train_query a;
     val_query := val_query a; update_step := update_step a;
     step_size := step_size a; gamma := gamma a; save_path := save_path a |}.

(** ** Reading the trace of [meta_train] *)

Definition is_backward {weights} (e : event weights) : bool :=
  match e with EvBackward _ => true | _ => false end.
Definition is_lr_step {weights} (e : event weights) : bool :=
  match e with EvLrStep => true | _ => false end.
Definition is_save_to {weights} (path : string) (e : event weights) : bool :=
  match e with EvSave p _ => bool_decide (p = path) | _ => false end.

(** How often an event of a kind occurs. *)
Definition count_events {weights} (kind : event weights → bool)
    (tr : list (event weights)) : nat :=
  length (filter (fun e => kind e = true) tr).

(** ** Examples for the OOD loop *)



(** ** [models/resnet12_mtl.py]: the regulariser of [BasicBlock_MTL.forward] *)











(** * Properties *)

(** ** Arithmetic of [pyfloat] *)

Lemma fold_fadd_finite (xs : list R) (a : R) :
  fold_left fadd (map Finite xs) (Finite a) = Finite (a + rsum xs).
Proof.
  revert a. induction xs as [|x xs IH]; intros a; simpl.
  - f_equal. lra.
  - rewrite IH. f_equal. lra.
Qed.

Lemma np_sum_finite (xs : list R) : np_sum (map Finite xs) = Finite (rsum xs).
Proof. unfold np_sum. rewrite fold_fadd_finite. f_equal. lra. Qed.

Lemma fdiv_finite (a b : R) : b ≠ 0%R → fdiv (Finite a) (Finite b) = Finite (a / b).
Proof. intros Hb. simpl. destruct (Req_dec_T b 0); [contradiction | reflexivity]. Qed.

Lemma fsqrt_finite (a : R) : (0 <= a)%R → fsqrt (Finite a) = Finite (sqrt a).
Proof. intros Ha. simpl. destruct (Rlt_dec a 0); [lra | reflexivity]. Qed.

Lemma INR_length_pos {A} (xs : list A) : xs ≠ [] → (0 < INR (length xs))%R.
Proof.
  intros Hne. destruct xs as [|x xs]; [congruence|].
  apply lt_0_INR. simpl. lia.
Qed.

Lemma rsum_squares_nonneg (f : R → R) (xs : list R) :
  (0 <= rsum (map (fun x => f x * f x) xs))%R.
Proof.
  induction xs as [|x xs IH]; simpl; [lra|].
  pose proof (Rle_0_sqr (f x)) as Hsq. unfold Rsqr in Hsq. lra.
Qed.

Lemma np_mean_finite (xs : list R) :
  xs ≠ [] → np_mean (map Finite xs) = Finite (spec_mean xs).
Proof.
  intros Hne. unfold np_mean, of_len. rewrite np_sum_finite, length_map.
  rewrite fdiv_finite; [reflexivity|].
  pose proof (INR_length_pos xs Hne). lra.
Qed.

Lemma np_std_finite (xs : list R) :
  xs ≠ [] → np_std (map Finite xs) = Finite (spec_population_std xs).
Proof.
  intros Hne. pose proof (INR_length_pos xs Hne) as Hn.
  unfold np_std, of_len. rewrite np_mean_finite by assumption.
  rewrite !map_map, length_map.
  replace (map (fun v => fmul (fsub (Finite v) (Finite (spec_mean xs)))
                            (fsub (Finite v) (Finite (spec_mean xs)))) xs)
    with (map Finite
            (map (fun x => (x - spec_mean xs) * (x - spec_mean xs))%R xs)).
  2:{ rewrite map_map. apply map_ext. intros x. simpl. reflexivity. }
  rewrite np_sum_finite, fdiv_finite by lra.
  rewrite fsqrt_finite; [reflexivity|].
  apply Rmult_le_pos.
  - apply (rsum_squares_nonneg (fun x => (x - spec_mean xs)%R)).
  - left. apply Rinv_0_lt_compat. assumption.
Qed.

Lemma calculate_avg_std_ci95_finite (xs : list R) :
  xs ≠ [] →
  calculate_avg_std_ci95 (map Finite xs)
  = (Finite (spec_mean xs), Finite (spec_population_std xs),
     Finite (spec_ci95 xs)).
Proof.
  intros Hne. pose proof (INR_length_pos xs Hne) as Hn.
  unfold calculate_avg_std_ci95, np_sqrt, of_len.
  rewrite np_mean_finite, np_std_finite by assumption.
  rewrite length_map, fsqrt_finite by lra.
  cbn [fmul]. rewrite fdiv_finite; [reflexivity|].
  pose proof (sqrt_lt_R0 _ Hn). lra.
Qed.

Lemma spec_mean_one (a : R) : spec_mean [a] = a.
Proof. unfold spec_mean. simpl. field. Qed.

Lemma spec_std_one (a : R) : spec_population_std [a] = 0%R.
Proof.
  unfold spec_population_std. rewrite spec_mean_one. simpl.
  replace ((a - a) * (a - a) + 0)%R with 0%R by ring.
  unfold Rdiv. rewrite Rmult_0_l. apply sqrt_0.
Qed.





(** ** Dirichlet parameters and probabilities *)











(** ** The KL annealing coefficient *)





(** ** The label tensors of an episode *)

Lemma py_range_length (lo hi : Z) : length (py_range lo hi) = Z.to_nat (hi - lo).
Proof. unfold py_range. rewrite length_map, length_seq. reflexivity. Qed.

Lemma py_range_lookup (lo hi : Z) (i : nat) :
  (i < Z.to_nat (hi - lo))%nat → py_range lo hi !! i = Some (lo + Z.of_nat i).
Proof.
  intros Hi. unfold py_range. rewrite list_lookup_fmap.
  rewrite lookup_seq_lt by assumption. reflexivity.
Qed.

Lemma concat_replicate_length {A} (t : list A) (k : nat) :
  length (concat (replicate k t)) = (k * length t)%nat.
Proof.
  induction k as [|k IH]; simpl; [reflexivity|].
  rewrite length_app, IH. reflexivity.
Qed.

Lemma concat_replicate_lookup {A} (t : list A) (k i : nat) :
  (i < k * length t)%nat →
  concat (replicate k t) !! i = t !! (i mod length t)%nat.
Proof.
  revert i. induction k as [|k IH]; intros i Hi; simpl in *; [lia|].
  destruct (decide (i < length t)%nat) as [Hlt|Hge].
  - rewrite lookup_app_l by assumption.
    rewrite Nat.mod_small by assumption. reflexivity.
  - rewrite lookup_app_r by lia. rewrite IH by lia.
    f_equal. assert (Hpos : length t ≠ 0%nat) by lia.
    replace i with ((i - length t) + 1 * length t)%nat at 2 by lia.
    rewrite Nat.Div0.mod_add. reflexivity.
Qed.

(** The tensor [torch.arange(way).repeat(k)]: its length, its bounds and its
    entry at every position. *)
Lemma arange_repeat_spec (way k : Z) :
  0 ≤ way → 0 ≤ k →
  ∃ l, (classes ← torch_arange way; tensor_repeat classes k) = Ok l
       ∧ Z.of_nat (length l) = way * k
       ∧ (∀ i : Z, 0 ≤ i < way * k → l !! Z.to_nat i = Some (i `mod` way))
       ∧ Forall (fun v => 0 ≤ v < way) l.
Proof.
  intros Hway Hk. unfold torch_arange, tensor_repeat.
  destruct (way <? 0) eqn:Hw; [lia|]. simpl.
  destruct (k <? 0) eqn:Hk'; [lia|].
  eexists. split; [reflexivity|].
  assert (Hlen : length (py_range 0 way) = Z.to_nat way)
    by (rewrite py_range_length; f_equal; lia).
  assert (Hlook : ∀ i : Z, 0 ≤ i < way * k →
            concat (replicate (Z.to_nat k) (py_range 0 way)) !! Z.to_nat i
            = Some (i `mod` way)).
  { intros i Hi. assert (0 < way) by nia.
    rewrite concat_replicate_lookup by (rewrite Hlen; nia).
    rewrite Hlen. rewrite py_range_lookup.
    - f_equal. rewrite Nat2Z.inj_mod, !Z2Nat.id by lia. lia.
    - replace (way - 0) with way by lia.
      apply Nat.mod_upper_bound. lia. }
  split; [|split].
  - rewrite concat_replicate_length, Hlen. nia.
  - exact Hlook.
  - apply Forall_lookup_2. intros j v Hj.
    assert (Hjlt : (j < Z.to_nat k * Z.to_nat way)%nat).
    { apply lookup_lt_Some in Hj.
      rewrite concat_replicate_length, Hlen in Hj. exact Hj. }
    specialize (Hlook (Z.of_nat j)). rewrite Nat2Z.id in Hlook.
    rewrite Hlook in Hj by nia. injection Hj as <-.
    apply Z.mod_pos_bound. nia.
Qed.

Lemma label_tensors_exist (self : MetaTrainer) :
  0 ≤ way (self_args self) → 0 ≤ shot (self_args self) →
  0 ≤ train_query (self_args self) →
  ∃ label_support label_query,
    make_label_support self = Ok label_support
    ∧ make_label_query self = Ok label_query.
Proof.
  intros Hway Hshot Hquery.
  destruct (arange_repeat_spec _ _ Hway Hshot) as (ls & Hls & _).
  destruct (arange_repeat_spec _ _ Hway Hquery) as (lq & Hlq & _).
  exists ls, lq. split; assumption.
Qed.

(** C4 (as the code has it).  With non-negative [way], [shot] and
    [train_query], the support label tensor has length [way * shot] and the
    query label tensor has length [way * train_query]; every value lies in
    [[0, way)]; and position [i] holds [i mod way], that is, the classes
    [0 .. way-1] in turn, the whole run repeated [shot] (or [train_query])
    times.  The two tensors are built once and every episode of every epoch
    uses them. *)
Theorem label_tensors_round_robin (self : MetaTrainer) :
  let args := self_args self in
  0 ≤ way args → 0 ≤ shot args → 0 ≤ train_query args →
  ∃ label_support label_query,
    make_label_support self = Ok label_support
    ∧ make_label_query self = Ok label_query
    ∧ Z.of_nat (length label_support) = way args * shot args
    ∧ Z.of_nat (length label_query) = way args * train_query args
    ∧ Forall (fun v => 0 ≤ v < way args) label_support
    ∧ Forall (fun v => 0 ≤ v < way args) label_query
    ∧ (∀ i, 0 ≤ i < way args * shot args →
         label_support !! Z.to_nat i = Some (i `mod` way args))
    ∧ (∀ i, 0 ≤ i < way args * train_query args →
         label_query !! Z.to_nat i = Some (i `mod` way args))
    ∧ (∀ (image learner weights : Type) state_dict meta_train_forward edl_loss
         count_acc outer_update lr_scheduler_step
         (train_loader val_loader : Z → list (Task image)) (l : learner)
         (n : Z),
          @meta_train_upto image learner weights state_dict meta_train_forward
            edl_loss count_acc outer_update lr_scheduler_step self train_loader
            val_loader l n
          = for_each
              (epoch_step state_dict meta_train_forward edl_loss count_acc
                 outer_update lr_scheduler_step self label_support label_query
                 train_loader val_loader)
              (mt_init self l) (py_range 1 (n + 1))).
Proof.
  intros args Hway Hshot Hquery.
  destruct (arange_repeat_spec (way args) (shot args) Hway Hshot)
    as (ls & Hls & Hlen_s & Hlook_s & Hall_s).
  destruct (arange_repeat_spec (way args) (train_query args) Hway Hquery)
    as (lq & Hlq & Hlen_q & Hlook_q & Hall_q).
  exists ls, lq. unfold make_label_support, make_label_query.
  fold args. rewrite Hls, Hlq.
  repeat split; try assumption.
  intros. unfold meta_train_upto, make_label_support, make_label_query.
  fold args. rewrite Hls, Hlq. reflexivity.
Qed.

Lemma label_tensors_round_robin_witness :
  ∃ label_support label_query,
    make_label_support (demo_trainer 5 1 15 100) = Ok label_support
    ∧ make_label_query (demo_trainer 5 1 15 100) = Ok label_query
    ∧ Z.of_nat (length label_support) = 5 * 1
    ∧ Z.of_nat (length label_query) = 5 * 15.
Proof.
  destruct (label_tensors_round_robin (demo_trainer 5 1 15 100))
    as (ls & lq & Hs & Hq & Hls & Hlq & _); simpl; try lia.
  exists ls, lq. repeat split; assumption.
Defined.

(** C4, as stated, fails: for a 2-way 2-shot trainer the support labels are
    [0, 1, 0, 1], not the per-class blocks [0, 0, 1, 1]. *)
Lemma label_support_not_block_order :
  make_label_support (demo_trainer 2 2 1 1) = Ok [0; 1; 0; 1]
  ∧ spec_block_labels 2 2 = [0; 0; 1; 1]
  ∧ make_label_support (demo_trainer 2 2 1 1) ≠ Ok (spec_block_labels 2 2).
Proof. repeat split. discriminate. Qed.

(** ** The loss used by the trainer *)

(** C1 (the code at [--loss_type mse]).  [MetaTrainer.__init__] stores
    [edl_log_loss] whatever the option says: for [loss_type = 'mse'] the
    trainer keeps the option but uses [edl_log_loss], not the formula the
    option names, and every episode's loss is [edl_log_loss] applied to the
    query alpha. *)
Theorem mse_option_uses_log_loss :
  let self := MetaTrainer_init demo_str_float mse_args in
  loss_type (self_args self) = Mse
  ∧ self_loss self = edl_log_loss
  ∧ self_loss self ≠ spec_selected_loss (loss_type (self_args self))
  ∧ (∀ py_str_float args,
        self_loss (MetaTrainer_init py_str_float args) = edl_log_loss)
  ∧ (∀ (image learner : Type) meta_train_forward edl_loss count_acc
       (l : learner) (training : bool) (label_support label_query : list Z)
       (epoch : Z) (task : Task image),
        let ep :=
          run_episode meta_train_forward edl_loss count_acc self l training
            label_support label_query epoch task in
        ep_loss ep = edl_loss edl_log_loss (ep_call ep)
        ∧ lc_alpha (ep_call ep) = ep_alpha_q ep).
Proof.
  repeat split. discriminate.
Qed.

(** ** The training log as a dictionary *)

Ltac view_map_eq :=
  unfold dict_of_view; apply map_eq; intros k;
  repeat (rewrite lookup_insert; case_decide; subst; try done).

Lemma trlog_init_view (self : MetaTrainer) :
  @trlog_init self = dict_of_view (view_init (self_args self)).
Proof. reflexivity. Qed.

Lemma dict_of_view_dom (v : log_view) : dom (dict_of_view v) = spec_trlog_keys.
Proof.
  unfold dict_of_view, spec_trlog_keys. rewrite !dom_insert_L, dom_empty_L.
  set_solver.
Qed.

Lemma dict_get_max_acc (v : log_view) :
  dict_get (dict_of_view v) "max_acc" = Ok (PyFloat (lv_max_acc v)).
Proof. unfold dict_get, dict_of_view. by simplify_map_eq. Qed.

Lemma dict_set_best (v : log_view) (acc : pyfloat) (epoch : Z) :
  <["max_acc_epoch" := PyInt epoch]>
    (<["max_acc" := PyFloat acc]> (dict_of_view v))
  = dict_of_view (view_set_best v acc epoch).
Proof. view_map_eq. Qed.

(** ** Loops, ranges and paths *)

Lemma for_each_app {S X} (body : S → X → result S) (s : S) (xs ys : list X) :
  for_each body s (xs ++ ys) = s' ← for_each body s xs; for_each body s' ys.
Proof.
  revert s. induction xs as [|x xs IH]; intros s; simpl; [reflexivity|].
  destruct (body s x) as [s'|e]; simpl; [apply IH | reflexivity].
Qed.

Lemma py_range_snoc (n : nat) :
  py_range 1 (Z.of_nat (S n) + 1)
  = py_range 1 (Z.of_nat n + 1) ++ [Z.of_nat n + 1].
Proof.
  unfold py_range.
  replace (Z.to_nat (Z.of_nat (S n) + 1 - 1)) with (S n) by lia.
  replace (Z.to_nat (Z.of_nat n + 1 - 1)) with n by lia.
  rewrite seq_S, map_app. simpl. do 2 f_equal. lia.
Qed.

Lemma string_app_inv_head (p x y : string) : p +:+ x = p +:+ y → x = y.
Proof.
  induction p as [|c p IH]; simpl; intros H; [exact H|].
  injection H as H. apply IH. exact H.
Qed.

Lemma osp_join_inj (a b1 b2 : string) :
  osp_join a b1 = osp_join a b2 → b1 = b2.
Proof.
  unfold osp_join. destruct a as [|c a]; [trivial|].
  destruct (ends_with_sep (String c a)); intros H.
  - eapply string_app_inv_head. exact H.
  - apply string_app_inv_head in H. eapply string_app_inv_head. exact H.
Qed.

Lemma max_acc_path_not_epoch (self : MetaTrainer) (epoch : Z) :
  max_acc_path self ≠ epoch_ckpt_path self epoch.
Proof. intros H. apply osp_join_inj in H. discriminate. Qed.

Lemma max_acc_path_not_trlog (self : MetaTrainer) :
  max_acc_path self ≠ trlog_path self.
Proof. intros H. apply osp_join_inj in H. discriminate. Qed.

Lemma trlog_path_not_epoch (self : MetaTrainer) (epoch : Z) :
  trlog_path self ≠ epoch_ckpt_path self epoch.
Proof. intros H. apply osp_join_inj in H. discriminate. Qed.

Lemma disk_app {weights} (tr evs : list (event weights)) :
  disk (tr ++ evs) = fold_left disk_write evs (disk tr).
Proof. unfold disk. apply fold_left_app. Qed.

Lemma disk_backward {weights} (d : gmap string (artifact weights))
    (losses : list pyfloat) :
  fold_left disk_write (map EvBackward losses) d = d.
Proof. induction losses as [|x losses IH]; simpl; [reflexivity | exact IH]. Qed.

Lemma fgt_finite (a b : R) : fgt (Finite a) (Finite b) = true ↔ (b < a)%R.
Proof.
  simpl. destruct (Rlt_dec b a); split; intros; try assumption;
    try reflexivity; try discriminate; contradiction.
Qed.

(** ** One epoch of [meta_train], in closed form *)

Section TrainerFacts.

Context {image learner weights : Type}.
Variable state_dict : learner → weights.
Variable meta_train_forward :
  learner → bool → list image → list Z → list image → Z → tensor.
Variable edl_loss : edl_loss_fn → loss_call → pyfloat.
Variable count_acc : tensor → list Z → pyfloat.
Variable outer_update :
  learner → edl_loss_fn → list image → list Z → list image → loss_call →
  learner.
Variable lr_scheduler_step : learner → learner.

Variable self : MetaTrainer.
Variables label_support label_query : list Z.
Variables train_loader val_loader : Z → list (Task image).

Local Abbreviation train_run' :=
  (train_run meta_train_forward edl_loss count_acc outer_update self
     label_support label_query).
Local Abbreviation val_run' :=
  (val_run meta_train_forward edl_loss count_acc self label_support
     label_query).
Local Abbreviation epoch_step' :=
  (epoch_step state_dict meta_train_forward edl_loss count_acc outer_update
     lr_scheduler_step self label_support label_query train_loader
     val_loader).
Local Abbreviation state := (@mt_state learner weights).

Lemma train_fold (epoch : Z) (tasks : list (Task image)) (st : state)
    (la aa : list pyfloat) :
  fold_left
    (train_step meta_train_forward edl_loss count_acc outer_update self
       label_support label_query epoch) tasks (st, la, aa)
  = let '(lf, losses, accs) := train_run' epoch (st_learner st) tasks in
    ({| st_learner := lf; st_trlog := st_trlog st;
        st_trace := st_trace st ++ map EvBackward losses |},
     la ++ losses, aa ++ accs).
Proof.
  revert st la aa. induction tasks as [|task tasks IH]; intros st la aa.
  - simpl. rewrite !app_nil_r. destruct st; reflexivity.
  - cbn [fold_left train_run]. unfold train_step at 2.
    rewrite IH. cbn [st_learner st_trlog st_trace emit set_learner].
    destruct (train_run' epoch _ tasks) as [[lf losses] accs].
    unfold Averager_add. cbn [map]. rewrite <- !app_assoc. reflexivity.
Qed.

Lemma val_fold (epoch : Z) (l : learner) (tasks : list (Task image))
    (vl va : list pyfloat) :
  fold_left
    (val_step meta_train_forward edl_loss count_acc self l label_support
       label_query epoch) tasks (vl, va)
  = (vl ++ fst (val_run' epoch l tasks), va ++ snd (val_run' epoch l tasks)).
Proof.
  revert vl va. induction tasks as [|task tasks IH]; intros vl va.
  - simpl. rewrite !app_nil_r. reflexivity.
  - cbn [fold_left]. unfold val_step at 2. rewrite IH.
    unfold Averager_add, val_run. cbn [fst snd map].
    rewrite <- !app_assoc. reflexivity.
Qed.

Local Abbreviation epoch_result' :=
  (epoch_result state_dict meta_train_forward edl_loss count_acc outer_update
     lr_scheduler_step self label_support label_query train_loader
     val_loader).

Lemma update_logs_eq (st : state) (v : log_view) (es : epoch_stats) :
  st_trlog st = dict_of_view v →
  update_logs lr_scheduler_step self st es
  = let v' :=
      view_append v (es_train_loss es) (es_train_acc es) (es_val_loss es)
        (es_val_acc es) in
    Ok {| st_learner := lr_scheduler_step (st_learner st);
          st_trlog := dict_of_view v';
          st_trace :=
            st_trace st
            ++ [EvSave (trlog_path self) (TrainLog (dict_of_view v'));
                EvLrStep] |}.
Proof.
  intros Hv. unfold update_logs. rewrite Hv.
  unfold dict_append, dict_get, dict_of_view at 1. simplify_map_eq.
  match goal with
  | |- context [set_trlog st ?d] =>
      replace d
        with (dict_of_view
                (view_append v (es_train_loss es) (es_train_acc es)
                   (es_val_loss es) (es_val_acc es)))
        by (symmetry; view_map_eq)
  end.
  unfold emit, set_learner, set_trlog.
  cbn [st_trlog st_learner st_trace].
  rewrite <- app_assoc. reflexivity.
Qed.

Lemma epoch_step_eq (st : state) (v : log_view) (epoch : Z) :
  st_trlog st = dict_of_view v →
  epoch_step' st epoch = Ok (epoch_result' st v epoch).
Proof.
  intros Hv. unfold epoch_step, run_loops, epoch_result.
  rewrite train_fold.
  destruct (train_run' epoch (st_learner st) (train_loader epoch))
    as [[lf losses] accs].
  rewrite val_fold. cbn [st_learner]. unfold val_run. cbn [fst snd].
  unfold Averager_new, Averager_data. cbn [app].
  set (vlosses := map _ (val_loader epoch)).
  set (vaccs := map _ (val_loader epoch)).
  cbn [es_val_acc].
  unfold update_best. cbn [st_trlog]. rewrite Hv, dict_get_max_acc.
  cbn [mbind result_bind float_gt].
  unfold epoch_view, epoch_tail_events.
  destruct (fgt (np_mean vaccs) (lv_max_acc v)) eqn:Hbetter;
    unfold save_model, set_trlog, emit;
    cbn [st_trlog st_learner st_trace mbind result_bind];
    rewrite ?dict_set_best;
    unfold save_periodic, save_model, emit;
    destruct (epoch `mod` 20 =? 0);
    (erewrite update_logs_eq; [|cbn [st_trlog]; reflexivity]);
    cbn [st_trlog st_learner st_trace
         es_train_loss es_train_acc es_val_loss es_val_acc app];
    rewrite <- ?app_assoc; reflexivity.
Qed.

End TrainerFacts.

(** ** What the tail of an epoch writes *)

Section TailEvents.

Context {learner weights : Type}.
Variable state_dict : learner → weights.
Variable self : MetaTrainer.
Variable lf : learner.
Variables v v' : log_view.
Variable epoch : Z.
Variable val_acc : pyfloat.

Local Abbreviation tail :=
  (epoch_tail_events state_dict self lf v epoch val_acc v').

Lemma tail_disk_trlog (d : gmap string (artifact weights)) :
  fold_left disk_write tail d !! trlog_path self
  = Some (TrainLog (dict_of_view v')).
Proof.
  unfold epoch_tail_events. rewrite !fold_left_app. simpl.
  apply lookup_insert_eq.
Qed.

Lemma tail_disk_max_acc_improved (d : gmap string (artifact weights)) :
  fgt val_acc (lv_max_acc v) = true →
  fold_left disk_write tail d !! max_acc_path self
  = Some (Checkpoint (state_dict lf)).
Proof.
  intros Hb. unfold epoch_tail_events. rewrite Hb, !fold_left_app. simpl.
  rewrite lookup_insert_ne by (apply not_eq_sym, max_acc_path_not_trlog).
  destruct (epoch `mod` 20 =? 0); simpl.
  - rewrite lookup_insert_ne by (apply not_eq_sym, max_acc_path_not_epoch).
    apply lookup_insert_eq.
  - apply lookup_insert_eq.
Qed.

Lemma tail_disk_max_acc_kept (d : gmap string (artifact weights)) :
  fgt val_acc (lv_max_acc v) = false →
  fold_left disk_write tail d !! max_acc_path self = d !! max_acc_path self.
Proof.
  intros Hb. unfold epoch_tail_events. rewrite Hb, !fold_left_app. simpl.
  rewrite lookup_insert_ne by (apply not_eq_sym, max_acc_path_not_trlog).
  destruct (epoch `mod` 20 =? 0); simpl; [|reflexivity].
  rewrite lookup_insert_ne by (apply not_eq_sym, max_acc_path_not_epoch).
  reflexivity.
Qed.

Lemma tail_writes_max_acc (obj : artifact weights) :
  EvSave (max_acc_path self) obj ∈ tail
  ↔ fgt val_acc (lv_max_acc v) = true ∧ obj = Checkpoint (state_dict lf).
Proof.
  unfold epoch_tail_events. rewrite !elem_of_app. split.
  - intros [H|[H|H]].
    + destruct (fgt val_acc (lv_max_acc v)); [|by apply elem_of_nil in H].
      apply list_elem_of_singleton in H. injection H as ->. done.
    + destruct (epoch `mod` 20 =? 0); [|by apply elem_of_nil in H].
      apply list_elem_of_singleton in H. injection H as H _.
      by apply max_acc_path_not_epoch in H.
    + apply elem_of_cons in H as [H|H].
      * injection H as H _. by apply max_acc_path_not_trlog in H.
      * apply list_elem_of_singleton in H. discriminate.
  - intros [-> ->]. left. by apply list_elem_of_singleton.
Qed.

Lemma tail_writes_trlog (obj : artifact weights) :
  EvSave (trlog_path self) obj ∈ tail ↔ obj = TrainLog (dict_of_view v').
Proof.
  unfold epoch_tail_events. rewrite !elem_of_app. split.
  - intros [H|[H|H]].
    + destruct (fgt val_acc (lv_max_acc v)); [|by apply elem_of_nil in H].
      apply list_elem_of_singleton in H. injection H as H _.
      symmetry in H. by apply max_acc_path_not_trlog in H.
    + destruct (epoch `mod` 20 =? 0); [|by apply elem_of_nil in H].
      apply list_elem_of_singleton in H. injection H as H _.
      by apply trlog_path_not_epoch in H.
    + apply elem_of_cons in H as [H|H].
      * by injection H as ->.
      * apply list_elem_of_singleton in H. discriminate.
  - intros ->. right. right. apply elem_of_cons. by left.
Qed.

End TailEvents.

Lemma backward_not_save {weights} (losses : list pyfloat) (path : string)
    (obj : artifact weights) :
  EvSave path obj ∉ map EvBackward losses.
Proof.
  intros H. apply list_elem_of_fmap in H as (x & Hx & _). discriminate.
Qed.

Lemma dict_of_view_max_acc (v : log_view) :
  dict_of_view v !! "max_acc" = Some (PyFloat (lv_max_acc v)).
Proof. unfold dict_of_view. by simplify_map_eq. Qed.

Lemma dict_of_view_max_acc_epoch (v : log_view) :
  dict_of_view v !! "max_acc_epoch" = Some (PyInt (lv_max_acc_epoch v)).
Proof. unfold dict_of_view. by simplify_map_eq. Qed.

Lemma dict_of_view_train_loss (v : log_view) :
  dict_of_view v !! "train_loss" = Some (PyList (lv_train_loss v)).
Proof. unfold dict_of_view. by simplify_map_eq. Qed.

Lemma dict_of_view_val_loss (v : log_view) :
  dict_of_view v !! "val_loss" = Some (PyList (lv_val_loss v)).
Proof. unfold dict_of_view. by simplify_map_eq. Qed.

Lemma dict_of_view_train_acc (v : log_view) :
  dict_of_view v !! "train_acc" = Some (PyList (lv_train_acc v)).
Proof. unfold dict_of_view. by simplify_map_eq. Qed.

Lemma dict_of_view_val_acc (v : log_view) :
  dict_of_view v !! "val_acc" = Some (PyList (lv_val_acc v)).
Proof. unfold dict_of_view. by simplify_map_eq. Qed.

Lemma dict_of_view_args (v : log_view) :
  dict_of_view v !! "args" = Some (PyVars (lv_args v)).
Proof. unfold dict_of_view. by simplify_map_eq. Qed.

(** ** Non-finite values spread through a mean *)

Lemma fadd_finite_inv (x y : pyfloat) :
  is_finite (fadd x y) = true → is_finite x = true ∧ is_finite y = true.
Proof. destruct x, y; simpl; intros H; try discriminate; split; reflexivity. Qed.

Lemma fold_fadd_finite_inv (l : list pyfloat) (a : pyfloat) :
  is_finite (fold_left fadd l a) = true →
  is_finite a = true ∧ Forall (fun x => is_finite x = true) l.
Proof.
  revert a. induction l as [|x l IH]; intros a H; simpl in H.
  - split; [exact H | constructor].
  - apply IH in H as [Hax Hl]. apply fadd_finite_inv in Hax as [Ha Hx].
    split; [exact Ha | constructor; assumption].
Qed.

Lemma fdiv_finite_inv (x y : pyfloat) :
  is_finite y = true → is_finite (fdiv x y) = true → is_finite x = true.
Proof.
  destruct x, y; simpl; intros Hy H; try discriminate; try reflexivity;
    destruct (Rlt_dec _ _); discriminate.
Qed.

Lemma np_mean_finite_inv (l : list pyfloat) :
  is_finite (np_mean l) = true → Forall (fun x => is_finite x = true) l.
Proof.
  unfold np_mean, np_sum. intros H.
  apply fdiv_finite_inv in H; [|reflexivity].
  apply fold_fadd_finite_inv in H as [_ H]. exact H.
Qed.

Lemma fadd_nan_r (x : pyfloat) : fadd x NaN = NaN.
Proof. destruct x; reflexivity. Qed.

Lemma fold_fadd_nan (l : list pyfloat) : fold_left fadd l NaN = NaN.
Proof. induction l as [|y l IH]; simpl; [reflexivity | exact IH]. Qed.

Lemma fold_fadd_has_nan (l : list pyfloat) (a : pyfloat) :
  NaN ∈ l → fold_left fadd l a = NaN.
Proof.
  revert a. induction l as [|x l IH]; intros a Hin.
  - by apply elem_of_nil in Hin.
  - apply elem_of_cons in Hin as [<-|Hin]; simpl.
    + rewrite fadd_nan_r. apply fold_fadd_nan.
    + apply IH. exact Hin.
Qed.

Lemma np_sum_nan (l : list pyfloat) : NaN ∈ l → np_sum l = NaN.
Proof. apply fold_fadd_has_nan. Qed.

Lemma np_mean_nan (l : list pyfloat) : NaN ∈ l → np_mean l = NaN.
Proof. intros Hin. unfold np_mean. rewrite np_sum_nan by assumption. reflexivity. Qed.

Lemma np_std_nan (l : list pyfloat) : NaN ∈ l → np_std l = NaN.
Proof.
  intros Hin. unfold np_std. rewrite np_mean_nan by assumption.
  rewrite np_sum_nan; [reflexivity|].
  apply list_elem_of_fmap. exists NaN. split; [reflexivity|].
  apply list_elem_of_fmap. exists NaN. split; [reflexivity | exact Hin].
Qed.

(** One [nan] among the values makes all three statistics [nan]. *)
Lemma calculate_avg_std_ci95_nan (l : list pyfloat) :
  NaN ∈ l → calculate_avg_std_ci95 l = (NaN, NaN, NaN).
Proof.
  intros Hin. unfold calculate_avg_std_ci95.
  rewrite np_mean_nan, np_std_nan by assumption. reflexivity.
Qed.

(** ** The run of [meta_train], epoch by epoch *)

Section TrainerRun.

Context {image learner weights : Type}.
Variable state_dict : learner → weights.
Variable meta_train_forward :
  learner → bool → list image → list Z → list image → Z → tensor.
Variable edl_loss : edl_loss_fn → loss_call → pyfloat.
Variable count_acc : tensor → list Z → pyfloat.
Variable outer_update :
  learner → edl_loss_fn → list image → list Z → list image → loss_call →
  learner.
Variable lr_scheduler_step : learner → learner.

Variable self : MetaTrainer.
Variables train_loader val_loader : Z → list (Task image).
Variable l0 : learner.

Hypothesis way_nonneg : 0 ≤ way (self_args self).
Hypothesis shot_nonneg : 0 ≤ shot (self_args self).
Hypothesis query_nonneg : 0 ≤ train_query (self_args self).

Local Abbreviation upto :=
  (meta_train_upto state_dict meta_train_forward edl_loss count_acc
     outer_update lr_scheduler_step self train_loader val_loader l0).
Local Abbreviation result_of :=
  (epoch_result state_dict meta_train_forward edl_loss count_acc outer_update
     lr_scheduler_step self).

Local Abbreviation view_of :=
  (epoch_result_view meta_train_forward edl_loss count_acc outer_update self).

Lemma epoch_result_trlog (ls lq : list Z) (st : @mt_state learner weights)
    (v : log_view) (epoch : Z) :
  st_trlog (result_of ls lq train_loader val_loader st v epoch)
  = dict_of_view
      (view_of ls lq train_loader val_loader (st_learner st) v epoch).
Proof.
  unfold epoch_result, epoch_result_view.
  destruct (train_run _ _ _ _ _ _ _ _ _ _) as [[lf losses] accs].
  reflexivity.
Qed.

Lemma epoch_result_view_shape (ls lq : list Z) (l : learner) (v : log_view)
    (epoch : Z) :
  let v' := view_of ls lq train_loader val_loader l v epoch in
  lv_args v' = lv_args v
  ∧ length (lv_train_loss v') = S (length (lv_train_loss v))
  ∧ length (lv_val_loss v') = S (length (lv_val_loss v))
  ∧ length (lv_train_acc v') = S (length (lv_train_acc v))
  ∧ length (lv_val_acc v') = S (length (lv_val_acc v)).
Proof.
  unfold epoch_result_view.
  destruct (train_run _ _ _ _ _ _ _ _ _ _) as [[lf losses] accs].
  unfold val_run, epoch_view.
  destruct (fgt _ _);
    cbn [view_append view_set_best lv_args lv_train_loss lv_val_loss
         lv_train_acc lv_val_acc];
    rewrite !length_app; simpl; repeat split; lia.
Qed.

(** What holds between two epochs: the run so far has not raised, the log is
    the dictionary of a view whose four histories have one entry per
    completed epoch, and the next epoch ends in [epoch_result]. *)
Lemma meta_train_epoch (n : nat) :
  ∃ label_support label_query st v,
    make_label_support self = Ok label_support
    ∧ make_label_query self = Ok label_query
    ∧ upto (Z.of_nat n) = Ok st
    ∧ st_trlog st = dict_of_view v
    ∧ lv_args v = self_args self
    ∧ length (lv_train_loss v) = n ∧ length (lv_val_loss v) = n
    ∧ length (lv_train_acc v) = n ∧ length (lv_val_acc v) = n
    ∧ upto (Z.of_nat n + 1)
      = Ok (result_of label_support label_query train_loader val_loader st v
              (Z.of_nat n + 1)).
Proof.
  destruct (label_tensors_exist self way_nonneg shot_nonneg
              query_nonneg) as (ls & lq & Hls & Hlq).
  exists ls, lq.
  assert (Hrun : ∀ n : nat, ∃ st v,
            upto (Z.of_nat n) = Ok st
            ∧ st_trlog st = dict_of_view v
            ∧ lv_args v = self_args self
            ∧ length (lv_train_loss v) = n ∧ length (lv_val_loss v) = n
            ∧ length (lv_train_acc v) = n ∧ length (lv_val_acc v) = n
            ∧ upto (Z.of_nat n + 1)
              = Ok (result_of ls lq train_loader val_loader st v
                      (Z.of_nat n + 1))).
  { unfold meta_train_upto. rewrite Hls, Hlq. cbn [mbind result_bind].
    intros m.
    induction m as [|m (st & v & Hst & Hv & Hargs & H1 & H2 & H3 & H4 & Hnext)].
    - exists (mt_init self l0), (view_init (self_args self)).
      repeat split; try reflexivity.
      change (py_range 1 (Z.of_nat 0 + 1 + 1)) with [1].
      cbn [for_each].
      erewrite epoch_step_eq with (v := view_init (self_args self))
        by reflexivity.
      reflexivity.
    - replace (Z.of_nat (S m)) with (Z.of_nat m + 1) by lia.
      exists (result_of ls lq train_loader val_loader st v (Z.of_nat m + 1)),
        (view_of ls lq train_loader val_loader (st_learner st) v
           (Z.of_nat m + 1)).
      pose proof (epoch_result_view_shape ls lq (st_learner st) v
                    (Z.of_nat m + 1)) as (Ha & Hb & Hc & Hd & He).
      split; [exact Hnext|].
      split; [apply epoch_result_trlog|].
      split; [congruence|].
      do 4 (split; [lia|]).
      replace (Z.of_nat m + 1 + 1 + 1) with (Z.of_nat (S (S m)) + 1) by lia.
      rewrite py_range_snoc, for_each_app.
      replace (Z.of_nat (S m) + 1) with (Z.of_nat m + 1 + 1) by lia.
      rewrite Hnext. cbn [mbind result_bind for_each].
      erewrite epoch_step_eq by apply epoch_result_trlog.
      reflexivity. }
  destruct (Hrun n) as (st & v & H). exists st, v. tauto.
Qed.

Local Abbreviation train_run'' :=
  (train_run meta_train_forward edl_loss count_acc outer_update self).
Local Abbreviation val_run'' :=
  (val_run meta_train_forward edl_loss count_acc self).

(** The same, with the two loops of the next epoch spelled out. *)
Lemma meta_train_epoch_detail (n : nat) :
  ∃ ls lq st v lf losses accs,
    make_label_support self = Ok ls
    ∧ make_label_query self = Ok lq
    ∧ upto (Z.of_nat n) = Ok st
    ∧ st_trlog st = dict_of_view v
    ∧ lv_args v = self_args self
    ∧ (length (lv_train_loss v) = n ∧ length (lv_val_loss v) = n
       ∧ length (lv_train_acc v) = n ∧ length (lv_val_acc v) = n)
    ∧ train_run'' ls lq (Z.of_nat n + 1) (st_learner st)
        (train_loader (Z.of_nat n + 1)) = (lf, losses, accs)
    ∧ let vl := val_run'' ls lq (Z.of_nat n + 1) lf
                  (val_loader (Z.of_nat n + 1)) in
      let v' := epoch_view v (Z.of_nat n + 1) losses accs (fst vl) (snd vl) in
      upto (Z.of_nat n + 1)
      = Ok {| st_learner := lr_scheduler_step lf;
              st_trlog := dict_of_view v';
              st_trace :=
                st_trace st ++ map EvBackward losses
                ++ epoch_tail_events state_dict self lf v (Z.of_nat n + 1)
                     (np_mean (snd vl)) v' |}.
Proof.
  destruct (meta_train_epoch n)
    as (ls & lq & st & v & Hls & Hlq & Hst & Hv & Hargs & H1 & H2 & H3 & H4
        & Hnext).
  destruct (train_run'' ls lq (Z.of_nat n + 1) (st_learner st)
              (train_loader (Z.of_nat n + 1))) as [[lf losses] accs] eqn:Htr.
  exists ls, lq, st, v, lf, losses, accs.
  repeat (split; [assumption|]). split; [tauto|]. split; [exact Htr|].
  cbv zeta. rewrite Hnext. unfold epoch_result. rewrite Htr. reflexivity.
Qed.

(** C5.  In every epoch, the "max_acc" checkpoint is written and
    [max_acc], [max_acc_epoch] are updated exactly when the epoch's
    validation accuracy is greater ([>]) than the best recorded so far; in
    the other epochs the two entries keep their values, no event writes the
    "max_acc" path, and the file there is unchanged. *)
Theorem max_acc_checkpoint_iff_improved (n : nat) :
  ∃ st st' best best_epoch val_accs val_acc lf new_events,
    upto (Z.of_nat n) = Ok st
    ∧ upto (Z.of_nat n + 1) = Ok st'
    ∧ st_trlog st !! "max_acc" = Some (PyFloat best)
    ∧ st_trlog st !! "max_acc_epoch" = Some (PyInt best_epoch)
    ∧ st_trlog st !! "val_acc" = Some (PyList val_accs)
    ∧ st_trlog st' !! "val_acc" = Some (PyList (val_accs ++ [val_acc]))
    ∧ st_trace st' = st_trace st ++ new_events
    ∧ st_learner st' = lr_scheduler_step lf
    ∧ (fgt val_acc best = true →
       st_trlog st' !! "max_acc" = Some (PyFloat val_acc)
       ∧ st_trlog st' !! "max_acc_epoch" = Some (PyInt (Z.of_nat n + 1))
       ∧ EvSave (max_acc_path self) (Checkpoint (state_dict lf)) ∈ new_events
       ∧ disk (st_trace st') !! max_acc_path self
         = Some (Checkpoint (state_dict lf)))
    ∧ (fgt val_acc best = false →
       st_trlog st' !! "max_acc" = Some (PyFloat best)
       ∧ st_trlog st' !! "max_acc_epoch" = Some (PyInt best_epoch)
       ∧ (∀ obj, EvSave (max_acc_path self) obj ∉ new_events)
       ∧ disk (st_trace st') !! max_acc_path self
         = disk (st_trace st) !! max_acc_path self)
    ∧ (∀ a b : R, fgt (Finite a) (Finite b) = true ↔ (b < a)%R).
Proof.
  destruct (meta_train_epoch_detail n)
    as (ls & lq & st & v & lf & losses & accs & _ & _ & Hst & Hv & _ & _ & _
        & Hnext).
  cbv zeta in Hnext.
  set (vl := val_run'' ls lq (Z.of_nat n + 1) lf
               (val_loader (Z.of_nat n + 1))) in Hnext.
  set (val_acc := np_mean (snd vl)) in Hnext.
  set (v' := epoch_view v (Z.of_nat n + 1) losses accs (fst vl) (snd vl))
    in Hnext.
  eexists st, _, (lv_max_acc v), (lv_max_acc_epoch v), (lv_val_acc v),
    val_acc, lf, _.
  split; [exact Hst|]. split; [exact Hnext|].
  cbn [st_trlog st_trace st_learner]. rewrite Hv.
  split; [apply dict_of_view_max_acc|].
  split; [apply dict_of_view_max_acc_epoch|].
  split; [apply dict_of_view_val_acc|].
  split.
  { rewrite dict_of_view_val_acc. subst v'. unfold epoch_view.
    fold val_acc. destruct (fgt val_acc (lv_max_acc v)); reflexivity. }
  split; [reflexivity|]. split; [reflexivity|].
  rewrite dict_of_view_max_acc, dict_of_view_max_acc_epoch.
  rewrite disk_app, fold_left_app, disk_backward.
  split; [|split]; [| |apply fgt_finite].
  - intros Hb. subst v'. unfold epoch_view. fold val_acc. rewrite Hb.
    repeat split.
    + apply elem_of_app. right. apply tail_writes_max_acc. done.
    + apply tail_disk_max_acc_improved. exact Hb.
  - intros Hb. subst v'. unfold epoch_view. fold val_acc. rewrite Hb.
    repeat split.
    + intros obj Hin. apply elem_of_app in Hin as [Hin|Hin].
      * by apply backward_not_save in Hin.
      * apply tail_writes_max_acc in Hin as [Hin _]. congruence.
    + apply tail_disk_max_acc_kept. exact Hb.
Qed.

(** C9.  After every epoch the log is a dictionary with exactly the keys
    [args], [train_loss], [val_loss], [train_acc], [val_acc], [max_acc] and
    [max_acc_epoch]; each of the four histories holds one scalar per
    completed epoch, the epoch just finished being appended at the end; and
    the file at the log's path is the whole current log, written once in
    the epoch by replacing what the path held. *)
Theorem training_log_persisted (n : nat) :
  ∃ st st' train_loss val_loss train_acc val_acc tl vl ta va best best_epoch
      new_events,
    upto (Z.of_nat n) = Ok st
    ∧ upto (Z.of_nat n + 1) = Ok st'
    ∧ dom (st_trlog st') = spec_trlog_keys
    ∧ (st_trlog st !! "train_loss" = Some (PyList train_loss)
       ∧ st_trlog st !! "val_loss" = Some (PyList val_loss)
       ∧ st_trlog st !! "train_acc" = Some (PyList train_acc)
       ∧ st_trlog st !! "val_acc" = Some (PyList val_acc))
    ∧ (length train_loss = n ∧ length val_loss = n
       ∧ length train_acc = n ∧ length val_acc = n)
    ∧ (st_trlog st' !! "train_loss" = Some (PyList (train_loss ++ [tl]))
       ∧ st_trlog st' !! "val_loss" = Some (PyList (val_loss ++ [vl]))
       ∧ st_trlog st' !! "train_acc" = Some (PyList (train_acc ++ [ta]))
       ∧ st_trlog st' !! "val_acc" = Some (PyList (val_acc ++ [va])))
    ∧ (st_trlog st' !! "args" = Some (PyVars (self_args self))
       ∧ st_trlog st' !! "max_acc" = Some (PyFloat best)
       ∧ st_trlog st' !! "max_acc_epoch" = Some (PyInt best_epoch))
    ∧ st_trace st' = st_trace st ++ new_events
    ∧ (∀ obj, EvSave (trlog_path self) obj ∈ new_events
              ↔ obj = TrainLog (st_trlog st'))
    ∧ disk (st_trace st') !! trlog_path self = Some (TrainLog (st_trlog st'))
    ∧ (∀ (d : gmap string (artifact weights)) obj,
         disk_write d (EvSave (trlog_path self) obj) !! trlog_path self
         = Some obj).
Proof.
  destruct (meta_train_epoch_detail n)
    as (ls & lq & st & v & lf & losses & accs & _ & _ & Hst & Hv & Hargs
        & Hlen & _ & Hnext).
  cbv zeta in Hnext.
  set (vr := val_run'' ls lq (Z.of_nat n + 1) lf
               (val_loader (Z.of_nat n + 1))) in Hnext.
  set (v' := epoch_view v (Z.of_nat n + 1) losses accs (fst vr) (snd vr))
    in Hnext.
  assert (Hv' : lv_args v' = lv_args v
                ∧ lv_train_loss v' = lv_train_loss v ++ [np_mean losses]
                ∧ lv_val_loss v' = lv_val_loss v ++ [np_mean (fst vr)]
                ∧ lv_train_acc v' = lv_train_acc v ++ [np_mean accs]
                ∧ lv_val_acc v' = lv_val_acc v ++ [np_mean (snd vr)]).
  { subst v'. unfold epoch_view. destruct (fgt _ _); repeat split. }
  destruct Hv' as (Ea & E1 & E2 & E3 & E4).
  eexists st, _, (lv_train_loss v), (lv_val_loss v), (lv_train_acc v),
    (lv_val_acc v), _, _, _, _, (lv_max_acc v'), (lv_max_acc_epoch v'), _.
  split; [exact Hst|]. split; [exact Hnext|].
  cbn [st_trlog st_trace]. rewrite Hv.
  split; [apply dict_of_view_dom|].
  split.
  { rewrite dict_of_view_train_loss, dict_of_view_val_loss,
      dict_of_view_train_acc, dict_of_view_val_acc. tauto. }
  split; [exact Hlen|].
  split.
  { rewrite dict_of_view_train_loss, dict_of_view_val_loss,
      dict_of_view_train_acc, dict_of_view_val_acc, E1, E2, E3, E4. tauto. }
  split.
  { rewrite dict_of_view_args, dict_of_view_max_acc,
      dict_of_view_max_acc_epoch, Ea, Hargs. tauto. }
  split; [reflexivity|].
  split; [|split].
  - intros obj. rewrite elem_of_app. split.
    + intros [Hin|Hin]; [by apply backward_not_save in Hin|].
      by apply tail_writes_trlog in Hin.
    + intros ->. right. by apply tail_writes_trlog.
  - rewrite disk_app, fold_left_app, disk_backward. apply tail_disk_trlog.
  - intros d obj. simpl. apply lookup_insert_eq.
Qed.

(** C3 (as the code has it).  The training loop has no finiteness check.
    Whatever the losses of an epoch's episodes are, the epoch completes
    without raising; every loss, in episode order, is backpropagated and
    added to the running average; the mean of all of them is appended to
    [train_loss] and the log is written.  If one of the losses is not finite,
    neither is the value logged for the epoch. *)
Theorem loss_never_checked (n : nat) :
  ∃ ls lq st st' lf losses accs train_loss tail,
    make_label_support self = Ok ls
    ∧ make_label_query self = Ok lq
    ∧ upto (Z.of_nat n) = Ok st
    ∧ upto (Z.of_nat n + 1) = Ok st'
    ∧ train_run'' ls lq (Z.of_nat n + 1) (st_learner st)
        (train_loader (Z.of_nat n + 1)) = (lf, losses, accs)
    ∧ length losses = length (train_loader (Z.of_nat n + 1))
    ∧ st_trace st' = st_trace st ++ map EvBackward losses ++ tail
    ∧ st_trlog st !! "train_loss" = Some (PyList train_loss)
    ∧ st_trlog st' !! "train_loss"
      = Some (PyList (train_loss ++ [Averager_data losses]))
    ∧ EvSave (trlog_path self) (TrainLog (st_trlog st')) ∈ tail
    ∧ disk (st_trace st') !! trlog_path self = Some (TrainLog (st_trlog st'))
    ∧ (∀ x, x ∈ losses → is_finite x = false →
            is_finite (Averager_data losses) = false)
    ∧ (NaN ∈ losses → Averager_data losses = NaN).
Proof.
  destruct (meta_train_epoch_detail n)
    as (ls & lq & st & v & lf & losses & accs & Hls & Hlq & Hst & Hv & _
        & _ & Htr & Hnext).
  cbv zeta in Hnext.
  set (vr := val_run'' ls lq (Z.of_nat n + 1) lf
               (val_loader (Z.of_nat n + 1))) in Hnext.
  set (v' := epoch_view v (Z.of_nat n + 1) losses accs (fst vr) (snd vr))
    in Hnext.
  eexists ls, lq, st, _, lf, losses, accs, (lv_train_loss v), _.
  do 3 (split; [assumption|]). split; [exact Hnext|].
  split; [exact Htr|].
  split.
  { clear -Htr. revert lf losses accs Htr.
    generalize (st_learner st).
    induction (train_loader (Z.of_nat n + 1)) as [|t ts IH];
      intros l lf losses accs Htr; simpl in Htr.
    - by injection Htr as <- <- <-.
    - destruct (train_run'' ls lq _ _ ts) as [[lf' losses'] accs'] eqn:E.
      injection Htr as <- <- <-. simpl. f_equal. eapply IH. exact E. }
  cbn [st_trlog st_trace]. rewrite Hv.
  split; [reflexivity|].
  split; [apply dict_of_view_train_loss|].
  split.
  { rewrite dict_of_view_train_loss. subst v'. unfold epoch_view.
    destruct (fgt _ _); reflexivity. }
  split; [by apply tail_writes_trlog|].
  split.
  { rewrite disk_app, fold_left_app, disk_backward. apply tail_disk_trlog. }
  split.
  - intros x Hin Hx. unfold Averager_data.
    destruct (is_finite (np_mean losses)) eqn:Hm; [|reflexivity].
    apply np_mean_finite_inv in Hm. rewrite Forall_forall in Hm.
    apply Hm in Hin. congruence.
  - apply np_mean_nan.
Qed.

End TrainerRun.

(** ** The theorems on a concrete run *)

Lemma max_acc_checkpoint_iff_improved_witness :
  (0 ≤ way (self_args (demo_trainer 2 1 1 1))
   ∧ 0 ≤ shot (self_args (demo_trainer 2 1 1 1))
   ∧ 0 ≤ train_query (self_args (demo_trainer 2 1 1 1)))
  ∧ ∃ st st', demo_run demo_forward 0 = Ok st
              ∧ demo_run demo_forward 1 = Ok st'.
Proof.
  split; [simpl; lia|].
  destruct (max_acc_checkpoint_iff_improved demo_state_dict demo_forward
              demo_loss demo_count_acc demo_update demo_lr_step
              (demo_trainer 2 1 1 1) demo_loader demo_loader tt
              ltac:(simpl; lia) ltac:(simpl; lia) ltac:(simpl; lia) 0%nat)
    as (st & st' & best & best_epoch & val_accs & val_acc & lf & new_events
        & H0 & H1 & _).
  exists st, st'. split; assumption.
Defined.

Lemma training_log_persisted_witness :
  (0 ≤ way (self_args (demo_trainer 2 1 1 1))
   ∧ 0 ≤ shot (self_args (demo_trainer 2 1 1 1))
   ∧ 0 ≤ train_query (self_args (demo_trainer 2 1 1 1)))
  ∧ ∃ st', demo_run demo_forward 1 = Ok st'
           ∧ dom (st_trlog st') = spec_trlog_keys.
Proof.
  split; [simpl; lia|].
  destruct (training_log_persisted demo_state_dict demo_forward
              demo_loss demo_count_acc demo_update demo_lr_step
              (demo_trainer 2 1 1 1) demo_loader demo_loader tt
              ltac:(simpl; lia) ltac:(simpl; lia) ltac:(simpl; lia) 0%nat)
    as (st & st' & _ & _ & _ & _ & _ & _ & _ & _ & _ & _ & _ & H0 & H1 & Hdom
        & _).
  exists st'. split; assumption.
Defined.

Lemma loss_never_checked_witness :
  (0 ≤ way (self_args (demo_trainer 2 1 1 1))
   ∧ 0 ≤ shot (self_args (demo_trainer 2 1 1 1))
   ∧ 0 ≤ train_query (self_args (demo_trainer 2 1 1 1)))
  ∧ ∃ st', demo_run nan_forward 1 = Ok st'
           ∧ disk (st_trace st') !! trlog_path (demo_trainer 2 1 1 1)
             = Some (TrainLog (st_trlog st')).
Proof.
  split; [simpl; lia|].
  destruct (loss_never_checked demo_state_dict nan_forward
              demo_loss demo_count_acc demo_update demo_lr_step
              (demo_trainer 2 1 1 1) demo_loader demo_loader tt
              ltac:(simpl; lia) ltac:(simpl; lia) ltac:(simpl; lia) 0%nat)
    as (ls & lq & st & st' & lf & losses & accs & tl & tail & _ & _ & _ & H1
        & _ & _ & _ & _ & _ & _ & Hdisk & _).
  exists st'. split; assumption.
Defined.

Lemma np_mean_single_zero : np_mean [Finite 0] = Finite 0.
Proof.
  change [Finite 0] with (map Finite [0%R]).
  rewrite np_mean_finite by discriminate. rewrite spec_mean_one. reflexivity.
Qed.

Lemma fgt_zero_zero : fgt (Finite 0) (Finite 0) = false.
Proof.
  destruct (fgt (Finite 0) (Finite 0)) eqn:H; [|reflexivity].
  apply fgt_finite in H. lra.
Qed.

Lemma np_mean_single_nan : np_mean [NaN] = NaN.
Proof. reflexivity. Qed.

(** The single epoch of the run with the diverged network, computed. *)
Lemma nan_epoch_result :
  epoch_result demo_state_dict nan_forward demo_loss demo_count_acc
    demo_update demo_lr_step (demo_trainer 2 1 1 1) [0; 1] [0; 1]
    demo_loader demo_loader (mt_init (demo_trainer 2 1 1 1) tt)
    (view_init (self_args (demo_trainer 2 1 1 1))) 1
  = let v' :=
      {| lv_args := self_args (demo_trainer 2 1 1 1);
         lv_train_loss := [NaN]; lv_val_loss := [NaN];
         lv_train_acc := [Finite 0]; lv_val_acc := [Finite 0];
         lv_max_acc := Finite 0; lv_max_acc_epoch := 0 |} in
    {| st_learner := tt;
       st_trlog := dict_of_view v';
       st_trace :=
         [EvBackward NaN;
          EvSave (trlog_path (demo_trainer 2 1 1 1))
            (TrainLog (dict_of_view v'));
          EvLrStep] |}.
Proof.
  unfold epoch_result.
  change (train_run nan_forward demo_loss demo_count_acc demo_update
            (demo_trainer 2 1 1 1) [0; 1] [0; 1] 1
            (st_learner (mt_init (demo_trainer 2 1 1 1) tt)) (demo_loader 1))
    with (tt, [NaN], [Finite 0]).
  cbv iota beta.
  change (val_run nan_forward demo_loss demo_count_acc (demo_trainer 2 1 1 1)
            [0; 1] [0; 1] 1 tt (demo_loader 1))
    with ([NaN], [Finite 0]).
  cbv iota beta zeta.
  unfold epoch_view, epoch_tail_events.
  cbn [view_init lv_max_acc].
  rewrite np_mean_single_zero, np_mean_single_nan, fgt_zero_zero.
  reflexivity.
Qed.

(** C3, as stated, fails: in a one-epoch run whose single training episode
    has a [nan] loss, [meta_train] returns normally; the [nan] loss is
    backpropagated, the epoch's [train_loss] entry is [nan], and the log is
    written. *)
Lemma nan_loss_is_backpropagated_and_logged :
  ∃ st,
    meta_train demo_state_dict nan_forward demo_loss demo_count_acc
      demo_update demo_lr_step (demo_trainer 2 1 1 1) demo_loader demo_loader
      tt = Ok st
    ∧ st_trace st
      = [EvBackward NaN;
         EvSave (trlog_path (demo_trainer 2 1 1 1)) (TrainLog (st_trlog st));
         EvLrStep]
    ∧ st_trlog st !! "train_loss" = Some (PyList [NaN]).
Proof.
  eexists. split.
  - unfold meta_train, meta_train_upto.
    change (make_label_support (demo_trainer 2 1 1 1)) with (Ok [0; 1]).
    change (make_label_query (demo_trainer 2 1 1 1)) with (Ok [0; 1]).
    cbn [mbind result_bind].
    change (py_range 1 (max_epoch (self_args (demo_trainer 2 1 1 1)) + 1))
      with [1].
    cbn [for_each].
    erewrite epoch_step_eq
      with (v := view_init (self_args (demo_trainer 2 1 1 1)))
      by reflexivity.
    cbn [mbind result_bind]. reflexivity.
  - rewrite nan_epoch_result. cbv zeta. cbn [st_trace st_trlog].
    split; [reflexivity|]. apply dict_of_view_train_loss.
Qed.

(** ** The OOD evaluation loop *)

Section OodFacts.

Context {image : Type}.
Variable get_task_data :
  Task image → EvalArgs → list image * list Z * list image * list Z.
Variable ood_forward :
  list image → list Z → list image → list image → tensor * tensor.
Variable count_acc : tensor → list Z → pyfloat.
Variable compute_differential_entropy : tensor → list pyfloat.
Variable compute_mutual_information : tensor → list pyfloat.
Variable compute_precision : tensor → list pyfloat.
Variable ROC_OOD :
  list pyfloat → list pyfloat → list pyfloat → list Z →
  result (pyfloat * pyfloat * pyfloat).
Variable args : EvalArgs.

Local Abbreviation step :=
  (ood_step get_task_data ood_forward count_acc compute_differential_entropy
     compute_mutual_information compute_precision ROC_OOD args).
Local Abbreviation eval :=
  (ood_eval get_task_data ood_forward count_acc compute_differential_entropy
     compute_mutual_information compute_precision ROC_OOD args).

(** One iteration appends one value to each list and one report, whose
    running statistics are computed from the whole lists. *)
Lemma ood_step_appends (n : Z) (st st' : ood_state)
    (item : Z * (Task image * Task image)) :
  step n st item = Ok st' →
  ∃ r, reports st' = reports st ++ [r]
       ∧ auroc_Dents st' = auroc_Dents st ++ [r_auroc_Dent r]
       ∧ auroc_MIs st' = auroc_MIs st ++ [r_auroc_MI r]
       ∧ auroc_precisions st' = auroc_precisions st ++ [r_auroc_precision r]
       ∧ r_stats_Dent r = calculate_avg_std_ci95 (auroc_Dents st')
       ∧ r_stats_MI r = calculate_avg_std_ci95 (auroc_MIs st')
       ∧ r_stats_precision r = calculate_avg_std_ci95 (auroc_precisions st').
Proof.
  destruct item as [task_id [task ood_task]]. unfold ood_step.
  destruct (get_task_data task args) as [[[ds ls] dq] lq].
  destruct (get_task_data ood_task args) as [[[ods ols] odq] olq].
  destruct (ood_forward ds ls dq odq) as [evidence ood_evidence].
  unfold get_uncertainty_score. simpl.
  destruct (ROC_OOD _ _ _ _) as [[[a b] c]|e]; simpl; [|discriminate].
  intros H. injection H as <-. simpl. eexists. split; [reflexivity|].
  simpl. repeat split.
Qed.

Lemma ood_step_inv (n : Z) (st st' : ood_state)
    (item : Z * (Task image * Task image)) :
  ood_inv st → step n st item = Ok st' →
  ood_inv st' ∧ length (reports st') = S (length (reports st)).
Proof.
  intros (HD & HM & HP & Hstats) Hstep.
  apply ood_step_appends in Hstep
    as (r & Hr & HD' & HM' & HP' & HsD & HsM & HsP).
  split; [|rewrite Hr, length_app; simpl; lia].
  unfold ood_inv. rewrite Hr, HD', HM', HP', !map_app, HD, HM, HP.
  repeat split; try reflexivity.
  all: destruct (decide (k < length (reports st))%nat) as [Hlt|Hge].
  all: try (rewrite lookup_app_l in H by assumption;
            rewrite take_app_le by lia;
            apply Hstats in H; tauto).
  all: rewrite lookup_app_r in H by lia.
  all: assert (k = length (reports st)) as ->
         by (apply lookup_lt_Some in H; simpl in H; lia).
  all: rewrite Nat.sub_diag in H; injection H as <-.
  all: rewrite take_ge by (rewrite length_app; simpl; lia).
  all: rewrite map_app; simpl.
  - rewrite HsD, HD', HD. reflexivity.
  - rewrite HsM, HM', HM. reflexivity.
  - rewrite HsP, HP', HP. reflexivity.
Qed.

Lemma ood_loop_inv (n : Z) (items : list (Z * (Task image * Task image)))
    (st st' : ood_state) :
  ood_inv st → for_each (step n) st items = Ok st' →
  ood_inv st' ∧ length (reports st') = (length (reports st) + length items)%nat.
Proof.
  revert st. induction items as [|item items IH]; intros st Hinv Hrun.
  - simpl in Hrun. injection Hrun as <-. split; [assumption | simpl; lia].
  - simpl in Hrun. destruct (step n st item) as [st1|e] eqn:Hstep;
      simpl in Hrun; [|discriminate].
    destruct (ood_step_inv _ _ _ _ Hinv Hstep) as [Hinv1 Hlen1].
    destruct (IH st1 Hinv1 Hrun) as [Hinv' Hlen'].
    split; [assumption | simpl; lia].
Qed.

End OodFacts.

Lemma ood_init_inv : ood_inv ood_init.
Proof.
  unfold ood_inv, ood_init. simpl. repeat split; try reflexivity;
    rewrite lookup_nil in H; discriminate.
Qed.

Lemma calculate_avg_std_ci95_single :
  calculate_avg_std_ci95 [Finite 0.8] = (Finite 0.8, Finite 0, Finite 0).
Proof.
  change [Finite 0.8] with (map Finite [0.8%R]).
  rewrite calculate_avg_std_ci95_finite by discriminate.
  unfold spec_ci95. rewrite spec_mean_one, spec_std_one.
  repeat f_equal. simpl. rewrite sqrt_1. lra.
Qed.

(** C2 (as the code has it).  Every value that [ROC_OOD] returns for a task,
    a [nan] included, is appended to its list, and the statistics reported
    after task [k+1] are computed from all [k+1] values returned so far,
    nothing being left out; so once a [nan] has been returned for a
    statistic, its mean, standard deviation and ci95 are [nan] for that task
    and every later one. *)
Theorem running_stats_include_every_task :
  ∀ (image : Type) get_task_data ood_forward count_acc diff_ent mut_inf prec
    ROC_OOD (args : EvalArgs) (dataloader ood_dataloader : list (Task image))
    (st : ood_state),
    ood_eval get_task_data ood_forward count_acc diff_ent mut_inf prec ROC_OOD
      args dataloader ood_dataloader = Ok st →
    length (reports st)
    = Nat.min (length dataloader) (length ood_dataloader)
    ∧ auroc_Dents st = map r_auroc_Dent (reports st)
    ∧ auroc_MIs st = map r_auroc_MI (reports st)
    ∧ auroc_precisions st = map r_auroc_precision (reports st)
    ∧ ∀ k r, reports st !! k = Some r →
        let seen := take (S k) (reports st) in
        r_stats_Dent r = calculate_avg_std_ci95 (map r_auroc_Dent seen)
        ∧ r_stats_MI r = calculate_avg_std_ci95 (map r_auroc_MI seen)
        ∧ r_stats_precision r
          = calculate_avg_std_ci95 (map r_auroc_precision seen)
        ∧ (NaN ∈ map r_auroc_Dent seen → r_stats_Dent r = (NaN, NaN, NaN))
        ∧ (NaN ∈ map r_auroc_MI seen → r_stats_MI r = (NaN, NaN, NaN))
        ∧ (NaN ∈ map r_auroc_precision seen →
           r_stats_precision r = (NaN, NaN, NaN)).
Proof.
  intros image get_task_data ood_forward count_acc diff_ent mut_inf prec
    ROC_OOD args dataloader ood_dataloader st Hrun.
  unfold ood_eval in Hrun.
  apply ood_loop_inv in Hrun as [(HD & HM & HP & Hstats) Hlen];
    [|apply ood_init_inv].
  split.
  { rewrite Hlen. unfold enumerate1. cbn [ood_init reports length].
    rewrite !length_zip_with, py_range_length. lia. }
  do 3 (split; [assumption|]).
  intros k r Hk seen. destruct (Hstats k r Hk) as (HsD & HsM & HsP).
  subst seen. rewrite HsD, HsM, HsP.
  repeat split; apply calculate_avg_std_ci95_nan.
Qed.

Lemma demo_two_task_run :
  ∃ st r1 r2,
    demo_ood_eval [full_task; no_query_task] [full_task; full_task] = Ok st
    ∧ reports st = [r1; r2]
    ∧ r_auroc_Dent r1 = Finite 0.8 ∧ r_auroc_Dent r2 = NaN
    ∧ r_all_labels r2 = [1; 1]
    ∧ r_stats_Dent r2 = calculate_avg_std_ci95 [Finite 0.8; NaN].
Proof.
  eexists. eexists. eexists. split; [reflexivity|].
  cbn [reports]. split; [reflexivity|].
  cbn [r_auroc_Dent r_all_labels r_stats_Dent].
  repeat split; reflexivity.
Qed.

Lemma running_stats_include_every_task_witness :
  ∃ st,
    demo_ood_eval [full_task; no_query_task] [full_task; full_task] = Ok st
    ∧ length (reports st) = 2%nat.
Proof.
  destruct (demo_ood_eval [full_task; no_query_task] [full_task; full_task])
    as [st|e] eqn:Hrun.
  - exists st. split; [reflexivity|].
    exact (proj1 (running_stats_include_every_task nat demo_get_task_data
                    demo_ood_forward demo_count_acc demo_metric demo_metric
                    demo_metric demo_ROC_OOD demo_eval_args
                    [full_task; no_query_task] [full_task; full_task] st
                    Hrun)).
  - exfalso. destruct demo_two_task_run as (st & r1 & r2 & H & _).
    rewrite H in Hrun. discriminate.
Defined.

(** C2, as stated, fails: when the second of two tasks has no
    in-distribution query, so that its AUROC is [nan], the statistics
    reported after it are [nan], [nan], [nan], whereas over the defined
    values alone they would be 0.8, 0, 0. *)
Lemma nan_auroc_enters_running_stats :
  ∃ st r,
    demo_ood_eval [full_task; no_query_task] [full_task; full_task] = Ok st
    ∧ reports st !! 1%nat = Some r
    ∧ map r_auroc_Dent (reports st) = [Finite 0.8; NaN]
    ∧ r_stats_Dent r = (NaN, NaN, NaN)
    ∧ calculate_avg_std_ci95
        (spec_defined_only (map r_auroc_Dent (reports st)))
      = (Finite 0.8, Finite 0, Finite 0)
    ∧ r_stats_Dent r
      ≠ calculate_avg_std_ci95
          (spec_defined_only (map r_auroc_Dent (reports st))).
Proof.
  destruct demo_two_task_run as (st & r1 & r2 & Hrun & Hr & H1 & H2 & _ & Hs).
  exists st, r2. rewrite Hr. cbn [map]. rewrite H1, H2.
  assert (Hnan : r_stats_Dent r2 = (NaN, NaN, NaN)).
  { rewrite Hs. apply calculate_avg_std_ci95_nan.
    apply elem_of_cons. right. apply elem_of_cons. by left. }
  assert (Hdef : calculate_avg_std_ci95 (spec_defined_only [Finite 0.8; NaN])
                 = (Finite 0.8, Finite 0, Finite 0)).
  { change (spec_defined_only [Finite 0.8; NaN]) with [Finite 0.8].
    apply calculate_avg_std_ci95_single. }
  repeat split; try assumption; try reflexivity.
  rewrite Hnan, Hdef. discriminate.
Qed.

(** ** The OOD support set does not reach the outputs *)

Lemma for_each_pointwise {S X} (body : S → X → result S) (xs ys : list X) :
  Forall2 (fun x y => ∀ s, body s x = body s y) xs ys →
  ∀ s, for_each body s xs = for_each body s ys.
Proof.
  induction 1 as [|x y xs ys Hxy _ IH]; intros s; simpl; [reflexivity|].
  rewrite Hxy. destruct (body s y) as [s'|e]; simpl; [apply IH | reflexivity].
Qed.

Lemma zip_pointwise {A B C} (R : B → C → Prop) (idx : list A) (bs : list B)
    (cs : list C) :
  Forall2 R bs cs →
  Forall2 (fun x y => fst x = fst y ∧ R (snd x) (snd y)) (zip idx bs)
    (zip idx cs).
Proof.
  intros H. revert idx.
  induction H as [|b c bs cs Hbc _ IH]; intros [|i idx]; simpl;
    try constructor; [split; [reflexivity | exact Hbc] | apply IH].
Qed.

(** C10.  Two evaluations over the same in-distribution tasks, whose OOD
    tasks pairwise have the same query data and query labels (and any
    support data and labels), end alike: both raise the same exception, or
    both return the same per-task reports (evidence, the three statistics,
    labels, AUROC values, running statistics) and the same three lists. *)
Theorem ood_support_does_not_matter :
  ∀ (image : Type) get_task_data ood_forward count_acc diff_ent mut_inf prec
    ROC_OOD (args : EvalArgs)
    (dataloader ood_dataloader ood_dataloader' : list (Task image)),
    Forall2 (fun o o' =>
               same_query (get_task_data o args) (get_task_data o' args))
      ood_dataloader ood_dataloader' →
    ood_eval get_task_data ood_forward count_acc diff_ent mut_inf prec ROC_OOD
      args dataloader ood_dataloader
    = ood_eval get_task_data ood_forward count_acc diff_ent mut_inf prec
        ROC_OOD args dataloader ood_dataloader'.
Proof.
  intros image get_task_data ood_forward count_acc diff_ent mut_inf prec
    ROC_OOD args dataloader oods oods' Hsame.
  unfold ood_eval, enumerate1.
  assert (Hlen : length (zip dataloader oods) = length (zip dataloader oods')).
  { rewrite !length_zip_with. apply Forall2_length in Hsame. lia. }
  rewrite Hlen. apply for_each_pointwise.
  generalize (py_range 1 (Z.of_nat (length (zip dataloader oods')) + 1)).
  intros idx.
  pose proof (zip_pointwise _ dataloader _ _ Hsame) as Hz.
  pose proof (zip_pointwise _ idx _ _ Hz) as Hzz.
  eapply Forall2_impl; [exact Hzz|].
  intros [i [task o]] [i' [task' o']]; simpl.
  intros (<- & <- & Hq & Hl) st. unfold ood_step.
  destruct (get_task_data task args) as [[[ds ls] dq] lq].
  destruct (get_task_data o args) as [[[ods ols] odq] olq].
  destruct (get_task_data o' args) as [[[ods' ols'] odq'] olq'].
  simpl in Hq, Hl. subst odq' olq'. reflexivity.
Qed.

Lemma ood_support_does_not_matter_witness :
  Forall2 (fun o o' =>
             same_query (demo_get_task_data o demo_eval_args)
               (demo_get_task_data o' demo_eval_args))
    [full_task] [other_support_task]
  ∧ demo_ood_eval [full_task] [full_task]
    = demo_ood_eval [full_task] [other_support_task].
Proof.
  assert (H : Forall2 (fun o o' =>
                         same_query (demo_get_task_data o demo_eval_args)
                           (demo_get_task_data o' demo_eval_args))
                [full_task] [other_support_task])
    by (repeat constructor).
  split; [exact H|].
  exact (ood_support_does_not_matter nat demo_get_task_data demo_ood_forward
           demo_count_acc demo_metric demo_metric demo_metric demo_ROC_OOD
           demo_eval_args [full_task] [full_task] [other_support_task] H).
Defined.

(** * Further properties *)

(** ** [acc_with_threshold] *)

Lemma select_length_le {A} (x : list A) (mask : list bool) :
  (length (select x mask) ≤ length x)%nat.
Proof.
  revert mask. induction x as [|a x IH]; intros [|b mask]; simpl; try lia.
  specialize (IH mask). destruct b; simpl; lia.
Qed.

Lemma select_length_same {A B} (x : list A) (y : list B) (mask : list bool) :
  length x = length mask → length y = length mask →
  length (select x mask) = length (select y mask).
Proof.
  revert y mask. induction x as [|a x IH]; intros [|c y] [|b mask] Hx Hy;
    simpl in *; try lia.
  destruct b; simpl; [f_equal|]; apply IH; lia.
Qed.

Lemma count_equal_bounds (a b : list Z) :
  0 ≤ count_equal a b ≤ Z.of_nat (length b).
Proof.
  unfold count_equal. split; [lia|].
  apply inj_le. etransitivity; [apply length_filter|].
  rewrite length_zip_with. lia.
Qed.

Lemma count_equal_refl (a : list Z) : count_equal a a = Z.of_nat (length a).
Proof.
  unfold count_equal. f_equal.
  induction a as [|z a IH]; simpl; [reflexivity|].
  rewrite filter_cons. rewrite Z.eqb_refl.
  destruct (decide (true = true)); [|congruence]. simpl. f_equal. exact IH.
Qed.

Lemma acc_with_threshold_eq (preds labels : list Z) (uncertainty : list pyfloat)
    (threshold : pyfloat) :
  length preds = length uncertainty → length labels = length uncertainty →
  let mask := map (fun u => fle u threshold) uncertainty in
  acc_with_threshold preds labels uncertainty threshold
  = Done (count_equal (select preds mask) (select labels mask),
          Z.of_nat (length (select labels mask))).
Proof.
  intros Hp Hl mask. unfold acc_with_threshold, mask_index. fold mask.
  assert (Hm : length mask = length uncertainty) by apply length_map.
  destruct (decide (length preds = length mask)); [|congruence].
  destruct (decide (length labels = length mask)); [|congruence].
  cbn [mbind checked_bind].
  destruct (Z.of_nat (length (select labels mask)) =? 0) eqn:Hz; [|reflexivity].
  apply Z.eqb_eq in Hz.
  pose proof (count_equal_bounds (select preds mask) (select labels mask)).
  rewrite Hz. do 2 f_equal. lia.
Qed.

Lemma acc_with_threshold_shape (preds labels : list Z)
    (uncertainty : list pyfloat) (threshold : pyfloat) :
  length preds ≠ length uncertainty ∨ length labels ≠ length uncertainty →
  acc_with_threshold preds labels uncertainty threshold = Fails IndexError.
Proof.
  intros H. unfold acc_with_threshold, mask_index. rewrite length_map.
  destruct (decide (length preds = length uncertainty)) as [Hp|Hp];
    [|reflexivity].
  cbn [mbind checked_bind].
  destruct (decide (length labels = length uncertainty)); [|reflexivity].
  destruct H; congruence.
Qed.

(** [acc_with_threshold] needs the three tensors to have one length, and then
    returns counts with [0 <= acc_nums <= filter_nums <= len(labels)]; with
    any other shapes the boolean indexing raises [IndexError]. *)
Theorem acc_with_threshold_bounds (preds labels : list Z)
    (uncertainty : list pyfloat) (threshold : pyfloat) :
  (length preds = length uncertainty ∧ length labels = length uncertainty →
   ∃ acc_nums filter_nums,
     acc_with_threshold preds labels uncertainty threshold
     = Done (acc_nums, filter_nums)
     ∧ 0 ≤ acc_nums ≤ filter_nums
     ∧ filter_nums ≤ Z.of_nat (length labels))
  ∧ (length preds ≠ length uncertainty ∨ length labels ≠ length uncertainty →
     acc_with_threshold preds labels uncertainty threshold
     = Fails IndexError).
Proof.
  split.
  - intros [Hp Hl]. eexists _, _.
    split; [apply acc_with_threshold_eq; assumption|].
    split; [apply count_equal_bounds|].
    apply inj_le. apply select_length_le.
  - apply acc_with_threshold_shape.
Qed.

Lemma acc_with_threshold_bounds_witness :
  ∃ acc_nums filter_nums,
    acc_with_threshold [0; 1; 1] [0; 1; 0] [Finite 0.1; Finite 0.9; Finite 0.2]
      (Finite 0.5) = Done (acc_nums, filter_nums)
    ∧ 0 ≤ acc_nums ≤ filter_nums
    ∧ filter_nums ≤ 3.
Proof.
  exact (proj1 (acc_with_threshold_bounds [0; 1; 1] [0; 1; 0]
                  [Finite 0.1; Finite 0.9; Finite 0.2] (Finite 0.5))
           (conj eq_refl eq_refl)).
Defined.

Lemma fle_trans (x y z : pyfloat) :
  fle x y = true → fle y z = true → fle x z = true.
Proof.
  destruct x, y, z; simpl; try discriminate; try reflexivity.
  destruct (Rle_dec r r0), (Rle_dec r0 r1), (Rle_dec r r1);
    try discriminate; try reflexivity. lra.
Qed.

Lemma select_mono_length {A} (x : list A) (m1 m2 : list bool) :
  Forall2 (fun b1 b2 => b1 = true → b2 = true) m1 m2 →
  (length (select x m1) ≤ length (select x m2))%nat.
Proof.
  intros H. revert x. induction H as [|b1 b2 m1 m2 Hb _ IH]; intros [|a x];
    simpl; try lia.
  specialize (IH x). destruct b1, b2; simpl; try lia;
    specialize (Hb eq_refl); discriminate.
Qed.

Lemma zip_with_nil_right {A B C} (f : A → B → C) (l : list A) :
  zip_with f l [] = [].
Proof. destruct l; reflexivity. Qed.

Lemma count_equal_select_mono (p l : list Z) (m1 m2 : list bool) :
  Forall2 (fun b1 b2 => b1 = true → b2 = true) m1 m2 →
  count_equal (select p m1) (select l m1)
  ≤ count_equal (select p m2) (select l m2).
Proof.
  intros H. unfold count_equal. apply inj_le. revert p l.
  induction H as [|b1 b2 m1 m2 Hb _ IH]; intros p l.
  - destruct p, l; simpl; lia.
  - destruct p as [|a p]; [simpl; lia|].
    destruct l as [|c l].
    { cbn [select]. rewrite !zip_with_nil_right. simpl. lia. }
    specialize (IH p l). cbn [select].
    destruct b1, b2; cbn [zip_with]; rewrite ?filter_cons;
      try (specialize (Hb eq_refl); discriminate);
      destruct (decide ((a =? c) = true)); simpl; lia.
Qed.

(** Raising the threshold never lowers either count: with
    [threshold1 <= threshold2], the accepted examples and the correct
    accepted examples at [threshold1] are among those at [threshold2]. *)
Theorem acc_with_threshold_monotone (preds labels : list Z)
    (uncertainty : list pyfloat) (t1 t2 : pyfloat) (a1 f1 a2 f2 : Z) :
  fle t1 t2 = true →
  acc_with_threshold preds labels uncertainty t1 = Done (a1, f1) →
  acc_with_threshold preds labels uncertainty t2 = Done (a2, f2) →
  a1 ≤ a2 ∧ f1 ≤ f2.
Proof.
  intros Ht H1 H2.
  destruct (decide (length preds = length uncertainty)) as [Hp|Hp].
  2:{ rewrite acc_with_threshold_shape in H1 by tauto. discriminate. }
  destruct (decide (length labels = length uncertainty)) as [Hl|Hl].
  2:{ rewrite acc_with_threshold_shape in H1 by tauto. discriminate. }
  rewrite acc_with_threshold_eq in H1, H2 by assumption. cbv zeta in H1, H2.
  injection H1 as <- <-. injection H2 as <- <-.
  assert (Hm : Forall2 (fun b1 b2 => b1 = true → b2 = true)
                 (map (fun u => fle u t1) uncertainty)
                 (map (fun u => fle u t2) uncertainty)).
  { clear -Ht.
    induction uncertainty as [|u us IH]; simpl; constructor; [|exact IH].
    intros Hu. eapply fle_trans; eassumption. }
  split.
  - apply count_equal_select_mono. exact Hm.
  - apply inj_le. apply select_mono_length. exact Hm.
Qed.

Lemma acc_with_threshold_monotone_witness :
  fle NInf PInf = true
  ∧ acc_with_threshold [0; 1; 1] [0; 1; 0] [Finite 0.1; Finite 0.9; NaN] NInf
    = Done (0, 0)
  ∧ acc_with_threshold [0; 1; 1] [0; 1; 0] [Finite 0.1; Finite 0.9; NaN] PInf
    = Done (2, 2)
  ∧ 0 ≤ 2 ∧ 0 ≤ 2.
Proof.
  split; [reflexivity|]. split; [reflexivity|]. split; [reflexivity|].
  exact (acc_with_threshold_monotone [0; 1; 1] [0; 1; 0]
           [Finite 0.1; Finite 0.9; NaN] NInf PInf 0 0 2 2 eq_refl eq_refl
           eq_refl).
Defined.

Lemma select_all_false {A} (x : list A) (mask : list bool) :
  Forall (fun b => b = false) mask → select x mask = [].
Proof.
  intros H. revert x. induction H as [|b mask -> _ IH]; intros [|a x];
    simpl; try reflexivity. apply IH.
Qed.

(** An uncertainty that is [nan] is never accepted, and neither is anything
    when the threshold is [nan]: with a [nan] threshold, or with all
    uncertainties [nan], the result is [(0, 0)]. *)
Theorem acc_with_threshold_nan (preds labels : list Z)
    (uncertainty : list pyfloat) (threshold : pyfloat) :
  length preds = length uncertainty → length labels = length uncertainty →
  threshold = NaN ∨ Forall (fun u => u = NaN) uncertainty →
  acc_with_threshold preds labels uncertainty threshold = Done (0, 0).
Proof.
  intros Hp Hl H. rewrite acc_with_threshold_eq by assumption. cbv zeta.
  assert (Hm : Forall (fun b => b = false)
                 (map (fun u => fle u threshold) uncertainty)).
  { apply Forall_map. destruct H as [->|H].
    - apply Forall_forall. intros u _. destruct u; reflexivity.
    - eapply Forall_impl; [exact H|]. intros u ->. reflexivity. }
  rewrite !select_all_false by assumption. reflexivity.
Qed.

Lemma acc_with_threshold_nan_witness :
  acc_with_threshold [0; 1] [0; 1] [Finite 0.1; Finite 0.2] NaN = Done (0, 0).
Proof.
  exact (acc_with_threshold_nan [0; 1] [0; 1] [Finite 0.1; Finite 0.2] NaN
           eq_refl eq_refl (or_introl eq_refl)).
Defined.

(** When every prediction equals its label, all accepted examples are
    correct: [acc_nums = filter_nums] at every threshold. *)
Theorem acc_with_threshold_perfect (labels : list Z)
    (uncertainty : list pyfloat) (threshold : pyfloat) :
  length labels = length uncertainty →
  ∃ n, acc_with_threshold labels labels uncertainty threshold = Done (n, n).
Proof.
  intros Hl. rewrite acc_with_threshold_eq by assumption. cbv zeta.
  rewrite count_equal_refl. eexists. reflexivity.
Qed.

Lemma acc_with_threshold_perfect_witness :
  ∃ n, acc_with_threshold [2; 0; 1] [2; 0; 1] [Finite 0.3; NaN; Finite 0.1]
         PInf = Done (n, n).
Proof.
  exact (acc_with_threshold_perfect [2; 0; 1] [Finite 0.3; NaN; Finite 0.1]
           PInf eq_refl).
Defined.

(** ** Loading the pre-trained encoder *)

Section PretrainedFacts.

Context {V : Type}.
Implicit Types pretrained_dict model_dict : gmap string V.

Lemma prefix_keys_lookup (prefix k : string) (d : gmap string V) :
  prefix_keys prefix d !! (prefix +:+ k) = d !! k.
Proof. unfold prefix_keys. apply (lookup_kmap (String.append prefix)). Qed.

Lemma prefix_keys_lookup_other (prefix key : string) (d : gmap string V) :
  (∀ k, key ≠ prefix +:+ k) → prefix_keys prefix d !! key = None.
Proof.
  intros H. unfold prefix_keys.
  apply (lookup_kmap_None (String.append prefix)). intros k Hk.
  exfalso. exact (H k Hk).
Qed.

Lemma keep_known_lookup (d model_dict : gmap string V) (key : string) :
  keep_known d model_dict !! key
  = if decide (is_Some (model_dict !! key)) then d !! key else None.
Proof.
  unfold keep_known. destruct (decide (is_Some (model_dict !! key))) as [H|H].
  - destruct (d !! key) as [v|] eqn:Hd.
    + apply map_lookup_filter_Some. split; assumption.
    + apply map_lookup_filter_None. left. assumption.
  - apply map_lookup_filter_None. right. intros v _. exact H.
Qed.

Lemma encoder_not_pre_encoder (k k' : string) :
  "encoder." +:+ k ≠ "pre_encoder." +:+ k'.
Proof. discriminate. Qed.

Lemma merge_pretrained_lookup pretrained_dict model_dict (key : string) :
  merge_pretrained pretrained_dict model_dict !! key
  = match model_dict !! key with
    | None => None
    | Some old =>
        match prefix_keys "pre_encoder." pretrained_dict !! key with
        | Some v => Some v
        | None =>
            match prefix_keys "encoder." pretrained_dict !! key with
            | Some v => Some v
            | None => Some old
            end
        end
    end.
Proof.
  unfold merge_pretrained, dict_update. cbv zeta.
  rewrite !lookup_union, !keep_known_lookup.
  destruct (model_dict !! key) as [old|] eqn:Hm.
  - destruct (decide (is_Some (Some old))) as [_|H]; [|exfalso; eauto].
    destruct (prefix_keys "pre_encoder." pretrained_dict !! key);
      destruct (prefix_keys "encoder." pretrained_dict !! key); reflexivity.
  - destruct (decide (is_Some None)) as [[? H]|_]; [discriminate|].
    reflexivity.
Qed.

Lemma merge_pretrained_dom pretrained_dict model_dict :
  dom (merge_pretrained pretrained_dict model_dict) = dom model_dict.
Proof.
  apply set_eq. intros key. rewrite !elem_of_dom, merge_pretrained_lookup.
  destruct (model_dict !! key) as [old|].
  - split; [eauto|]. intros _.
    destruct (prefix_keys "pre_encoder." pretrained_dict !! key);
      destruct (prefix_keys "encoder." pretrained_dict !! key); eauto.
  - reflexivity.
Qed.

(** Loading the pre-trained checkpoint never fails on its keys and never
    changes the set of parameter names: the dictionary given to
    [load_state_dict] has exactly the model's keys, whatever the checkpoint
    holds; in particular a checkpoint entry whose prefixed name the model
    does not have is dropped. *)
Theorem load_pretrained_keeps_keys pretrained_dict model_dict :
  load_pretrained pretrained_dict model_dict
  = Ok (merge_pretrained pretrained_dict model_dict)
  ∧ dom (merge_pretrained pretrained_dict model_dict) = dom model_dict
  ∧ (∀ key, model_dict !! key = None →
            merge_pretrained pretrained_dict model_dict !! key = None).
Proof.
  split; [|split].
  - unfold load_pretrained, load_state_dict.
    rewrite merge_pretrained_dom.
    destruct (decide (dom model_dict = dom model_dict)); [reflexivity|].
    congruence.
  - apply merge_pretrained_dom.
  - intros key Hkey. rewrite merge_pretrained_lookup, Hkey. reflexivity.
Qed.

(** After loading, a model parameter named ["encoder." + k] or
    ["pre_encoder." + k] holds the checkpoint's value for [k] when the
    checkpoint has one and its own value otherwise; every parameter whose
    name has neither prefix keeps its value. *)
Theorem load_pretrained_values pretrained_dict model_dict :
  let merged := merge_pretrained pretrained_dict model_dict in
  (∀ k old, model_dict !! ("encoder." +:+ k) = Some old →
            merged !! ("encoder." +:+ k)
            = Some (default old (pretrained_dict !! k)))
  ∧ (∀ k old, model_dict !! ("pre_encoder." +:+ k) = Some old →
              merged !! ("pre_encoder." +:+ k)
              = Some (default old (pretrained_dict !! k)))
  ∧ (∀ key, (∀ k, key ≠ "encoder." +:+ k) →
            (∀ k, key ≠ "pre_encoder." +:+ k) →
            merged !! key = model_dict !! key).
Proof.
  cbv zeta. split; [|split].
  - intros k old Hm. rewrite merge_pretrained_lookup, Hm.
    rewrite (prefix_keys_lookup_other "pre_encoder.")
      by (intros k'; apply encoder_not_pre_encoder).
    rewrite prefix_keys_lookup. destruct (pretrained_dict !! k); reflexivity.
  - intros k old Hm. rewrite merge_pretrained_lookup, Hm.
    rewrite prefix_keys_lookup.
    rewrite (prefix_keys_lookup_other "encoder.")
      by (intros k' H; symmetry in H; revert H;
          apply encoder_not_pre_encoder).
    destruct (pretrained_dict !! k); reflexivity.
  - intros key He Hp. rewrite merge_pretrained_lookup.
    rewrite !prefix_keys_lookup_other by assumption.
    destruct (model_dict !! key); reflexivity.
Qed.

End PretrainedFacts.

Lemma load_pretrained_values_witness :
  let model_dict : gmap string nat :=
    <["encoder.conv1.weight" := 0%nat]>
      (<["meta_base_learner.fc1_w" := 7%nat]> ∅) in
  let pretrained_dict : gmap string nat :=
    <["conv1.weight" := 5%nat]> (<["fc.weight" := 9%nat]> ∅) in
  merge_pretrained pretrained_dict model_dict !! "encoder.conv1.weight"
  = Some 5%nat.
Proof.
  intros model_dict pretrained_dict.
  exact (proj1 (load_pretrained_values pretrained_dict model_dict)
           "conv1.weight" 0%nat eq_refl).
Defined.

Lemma load_pretrained_keeps_keys_witness :
  let model_dict : gmap string nat :=
    <["encoder.conv1.weight" := 0%nat]> ∅ in
  let pretrained_dict : gmap string nat := <["fc.weight" := 9%nat]> ∅ in
  merge_pretrained pretrained_dict model_dict !! "encoder.fc.weight" = None.
Proof.
  intros model_dict pretrained_dict.
  exact (proj2 (proj2 (load_pretrained_keeps_keys pretrained_dict model_dict))
           "encoder.fc.weight" eq_refl).
Defined.

(** ** Where checkpoints are written and read *)

Lemma osp_join_head (c : ascii) (a b : string) :
  ∃ rest, osp_join (String c a) b = String c rest.
Proof.
  unfold osp_join. destruct (ends_with_sep (String c a)); simpl; eauto.
Qed.

Lemma trainer_save_path_head (py_str_float : pyfloat → string) (args : Args) :
  ∃ rest,
    save_path (self_args (MetaTrainer_init py_str_float args))
    = String "l" rest.
Proof. simpl. eauto. Qed.

(** The run directory tells the values of [--loss_type] apart: two
    configurations that differ only in [loss_type] get different save
    paths. *)
Theorem save_path_separates_loss_types (py_str_float : pyfloat → string)
    (args : Args) (c1 c2 : loss_choice) :
  c1 ≠ c2 →
  save_path (self_args (MetaTrainer_init py_str_float (set_loss_type args c1)))
  ≠ save_path
      (self_args (MetaTrainer_init py_str_float (set_loss_type args c2))).
Proof.
  intros Hne.
  cbn [MetaTrainer_init self_args set_save_path save_path set_loss_type
       loss_type dataset model_type meta_lr1 meta_lr2 train_num_batch
       max_epoch shot update_step].
  intros H. repeat (apply String.app_inj in H).
  destruct c1, c2; try congruence; simpl in H; discriminate.
Qed.

Lemma save_path_separates_loss_types_witness :
  save_path (self_args (MetaTrainer_init demo_str_float
                          (set_loss_type mse_args Mse)))
  ≠ save_path (self_args (MetaTrainer_init demo_str_float
                            (set_loss_type mse_args Log))).
Proof.
  exact (save_path_separates_loss_types demo_str_float mse_args Mse Log
           ltac:(discriminate)).
Defined.

(** The OOD script reads the model from
    [checkpoints/meta/<dataset>-<shot>-shot/max_acc.pth]: the path depends on
    the data set and the shot alone (the first value given to
    [args.save_path] is overwritten), and it is never the path at which the
    trainer writes its best model, which lies under [logs/meta]. *)
Theorem ood_checkpoint_path_spec :
  (∀ py_str_float args weight,
      ood_checkpoint_path py_str_float args weight
      = "checkpoints/meta/" +:+ dataset args +:+ "-" +:+ py_str_int (shot args)
        +:+ "-shot/max_acc.pth")
  ∧ (∀ f1 f2 args1 args2 w1 w2,
        dataset args1 = dataset args2 → shot args1 = shot args2 →
        ood_checkpoint_path f1 args1 w1 = ood_checkpoint_path f2 args2 w2)
  ∧ (∀ f1 f2 args1 args2 w,
        ood_checkpoint_path f1 args1 w
        ≠ max_acc_path (MetaTrainer_init f2 args2)).
Proof.
  split; [|split].
  - reflexivity.
  - intros f1 f2 args1 args2 w1 w2 Hd Hs. unfold ood_checkpoint_path.
    cbv zeta. rewrite Hd, Hs. reflexivity.
  - intros f1 f2 args1 args2 w. unfold max_acc_path.
    destruct (trainer_save_path_head f2 args2) as [rest ->].
    destruct (osp_join_head "l" rest ("max_acc" +:+ ".pth")) as [rest' ->].
    discriminate.
Qed.

Lemma ood_checkpoint_path_spec_witness :
  ood_checkpoint_path demo_str_float mse_args "10"
  = ood_checkpoint_path demo_str_float (set_loss_type mse_args Digamma) "1".
Proof.
  exact (proj1 (proj2 ood_checkpoint_path_spec) demo_str_float demo_str_float
           mse_args (set_loss_type mse_args Digamma) "10" "1" eq_refl eq_refl).
Defined.

(** ** More on the run of [meta_train] *)

Lemma fgt_irrefl (x : pyfloat) : fgt x x = false.
Proof.
  destruct x; simpl; try reflexivity.
  destruct (Rlt_dec r r); [lra | reflexivity].
Qed.

Lemma fgt_true_not_nan (x y : pyfloat) : fgt x y = true → x ≠ NaN ∧ y ≠ NaN.
Proof. destruct x, y; simpl; intros H; try discriminate; split; discriminate. Qed.

(** If [x] does not exceed [m] and [y] exceeds [m], then [x] does not exceed
    [y]. *)
Lemma fgt_bound_trans (x m y : pyfloat) :
  fgt x m = false → fgt y m = true → fgt x y = false.
Proof.
  destruct x, m, y; simpl; intros H1 H2; try discriminate; try reflexivity.
  destruct (Rlt_dec r0 r), (Rlt_dec r0 r1), (Rlt_dec r1 r);
    try discriminate; try reflexivity. lra.
Qed.

Lemma count_events_app {weights} (kind : event weights → bool)
    (tr1 tr2 : list (event weights)) :
  count_events kind (tr1 ++ tr2)
  = (count_events kind tr1 + count_events kind tr2)%nat.
Proof. unfold count_events. rewrite filter_app, length_app. reflexivity. Qed.

Lemma count_events_cons {weights} (kind : event weights → bool)
    (e : event weights) (tr : list (event weights)) :
  count_events kind (e :: tr)
  = ((if kind e then 1 else 0) + count_events kind tr)%nat.
Proof.
  unfold count_events. rewrite filter_cons.
  destruct (kind e); simpl; reflexivity.
Qed.

Lemma count_events_nil {weights} (kind : event weights → bool) :
  count_events kind [] = 0%nat.
Proof. reflexivity. Qed.

Lemma count_backward_losses {weights} (losses : list pyfloat) :
  count_events (@is_backward weights) (map EvBackward losses) = length losses.
Proof.
  induction losses as [|x losses IH]; [reflexivity|].
  cbn [map]. rewrite count_events_cons, IH. reflexivity.
Qed.

Lemma count_other_losses {weights} (kind : event weights → bool)
    (losses : list pyfloat) :
  (∀ x, kind (EvBackward x) = false) →
  count_events kind (map EvBackward losses) = 0%nat.
Proof.
  intros Hk. induction losses as [|x losses IH]; [reflexivity|].
  cbn [map]. rewrite count_events_cons, IH, Hk. reflexivity.
Qed.

Section TailCounts.

Context {learner weights : Type}.
Variable state_dict : learner → weights.
Variable self : MetaTrainer.
Variable lf : learner.
Variables v v' : log_view.
Variable epoch : Z.
Variable val_acc : pyfloat.

Local Abbreviation tail :=
  (epoch_tail_events state_dict self lf v epoch val_acc v').

Lemma tail_count_backward : count_events is_backward tail = 0%nat.
Proof.
  unfold epoch_tail_events. rewrite !count_events_app.
  destruct (fgt val_acc (lv_max_acc v)), (epoch `mod` 20 =? 0); reflexivity.
Qed.

Lemma tail_count_lr_step : count_events is_lr_step tail = 1%nat.
Proof.
  unfold epoch_tail_events. rewrite !count_events_app.
  destruct (fgt val_acc (lv_max_acc v)), (epoch `mod` 20 =? 0); reflexivity.
Qed.

Lemma is_save_to_other (p q : string) (obj : artifact weights) :
  p ≠ q → is_save_to q (EvSave p obj) = false.
Proof. intros H. simpl. apply bool_decide_eq_false. exact H. Qed.

Lemma is_save_to_same (p : string) (obj : artifact weights) :
  is_save_to p (EvSave p obj) = true.
Proof. simpl. apply bool_decide_eq_true. reflexivity. Qed.

Lemma tail_count_trlog :
  count_events (is_save_to (trlog_path self)) tail = 1%nat.
Proof.
  unfold epoch_tail_events. rewrite !count_events_app.
  destruct (fgt val_acc (lv_max_acc v)), (epoch `mod` 20 =? 0);
    rewrite ?count_events_cons, ?count_events_nil, ?is_save_to_same,
      ?(is_save_to_other (max_acc_path self))
        by apply max_acc_path_not_trlog;
    rewrite ?(is_save_to_other (epoch_ckpt_path self epoch))
      by (apply not_eq_sym, trlog_path_not_epoch);
    reflexivity.
Qed.

End TailCounts.

Section TrainRunLengths.

Context {image learner : Type}.
Variable meta_train_forward :
  learner → bool → list image → list Z → list image → Z → tensor.
Variable edl_loss : edl_loss_fn → loss_call → pyfloat.
Variable count_acc : tensor → list Z → pyfloat.
Variable outer_update :
  learner → edl_loss_fn → list image → list Z → list image → loss_call →
  learner.

(** The training loop computes one loss and one accuracy per task. *)
Lemma train_run_lengths (self : MetaTrainer) (ls lq : list Z) (epoch : Z)
    (tasks : list (Task image)) (l lf : learner) (losses accs : list pyfloat) :
  train_run meta_train_forward edl_loss count_acc outer_update self ls lq
    epoch l tasks = (lf, losses, accs) →
  length losses = length tasks ∧ length accs = length tasks.
Proof.
  revert l lf losses accs.
  induction tasks as [|t ts IH]; intros l lf losses accs H; simpl in H.
  - injection H as <- <- <-. split; reflexivity.
  - destruct (train_run _ _ _ _ _ _ _ _ _ ts) as [[lf' losses'] accs'] eqn:E.
    injection H as <- <- <-. apply IH in E as [E1 E2]. simpl. split; lia.
Qed.

End TrainRunLengths.

Lemma string_app_length (a b : string) :
  String.length (a +:+ b) = (String.length a + String.length b)%nat.
Proof. induction a as [|c a IH]; simpl; [reflexivity | rewrite IH; reflexivity]. Qed.

Lemma string_app_inv_tail (a b s : string) : a +:+ s = b +:+ s → a = b.
Proof.
  revert b. induction a as [|c a IH]; intros [|d b] H.
  - reflexivity.
  - apply (f_equal String.length) in H.
    rewrite !string_app_length in H. simpl in H. lia.
  - apply (f_equal String.length) in H.
    rewrite !string_app_length in H. simpl in H. lia.
  - change (String c (a +:+ s) = String d (b +:+ s)) in H.
    injection H as -> H. f_equal. apply IH. exact H.
Qed.

Lemma epoch_ckpt_path_inj (self : MetaTrainer) (e1 e2 : Z) :
  epoch_ckpt_path self e1 = epoch_ckpt_path self e2 → e1 = e2.
Proof.
  unfold epoch_ckpt_path. intros H. apply osp_join_inj in H.
  apply string_app_inv_tail in H. apply String.app_inj in H.
  unfold py_str_int in H. apply (inj pretty) in H. exact H.
Qed.

Section TailPeriodic.

Context {learner weights : Type}.
Variable state_dict : learner → weights.
Variable self : MetaTrainer.
Variable lf : learner.
Variables v v' : log_view.
Variable epoch : Z.
Variable val_acc : pyfloat.

Local Abbreviation tail :=
  (epoch_tail_events state_dict self lf v epoch val_acc v').

Lemma tail_disk_epoch_written (d : gmap string (artifact weights)) :
  epoch `mod` 20 = 0 →
  fold_left disk_write tail d !! epoch_ckpt_path self epoch
  = Some (Checkpoint (state_dict lf)).
Proof.
  intros Hm. unfold epoch_tail_events. rewrite !fold_left_app.
  apply Z.eqb_eq in Hm. rewrite Hm. simpl.
  rewrite lookup_insert_ne by apply trlog_path_not_epoch.
  apply lookup_insert_eq.
Qed.

Lemma tail_disk_epoch_other (d : gmap string (artifact weights)) (e : Z) :
  e ≠ epoch ∨ epoch `mod` 20 ≠ 0 →
  fold_left disk_write tail d !! epoch_ckpt_path self e
  = d !! epoch_ckpt_path self e.
Proof.
  intros He. unfold epoch_tail_events. rewrite !fold_left_app. simpl.
  rewrite lookup_insert_ne by apply trlog_path_not_epoch.
  assert (Hmax : ∀ d' : gmap string (artifact weights),
            fold_left disk_write
              (if fgt val_acc (lv_max_acc v)
               then [EvSave (max_acc_path self) (Checkpoint (state_dict lf))]
               else []) d' !! epoch_ckpt_path self e
            = d' !! epoch_ckpt_path self e).
  { intros d'. destruct (fgt val_acc (lv_max_acc v)); simpl; [|reflexivity].
    apply lookup_insert_ne. apply max_acc_path_not_epoch. }
  destruct (epoch `mod` 20 =? 0) eqn:Hm; simpl.
  - apply Z.eqb_eq in Hm. destruct He as [He|He]; [|contradiction].
    rewrite lookup_insert_ne; [apply Hmax|].
    intros H. apply epoch_ckpt_path_inj in H. congruence.
  - apply Hmax.
Qed.

End TailPeriodic.

Section TrainerRunMore.

Context {image learner weights : Type}.
Variable state_dict : learner → weights.
Variable meta_train_forward :
  learner → bool → list image → list Z → list image → Z → tensor.
Variable edl_loss : edl_loss_fn → loss_call → pyfloat.
Variable count_acc : tensor → list Z → pyfloat.
Variable outer_update :
  learner → edl_loss_fn → list image → list Z → list image → loss_call →
  learner.
Variable lr_scheduler_step : learner → learner.

Variable self : MetaTrainer.
Variables train_loader val_loader : Z → list (Task image).
Variable l0 : learner.

Local Abbreviation upto :=
  (meta_train_upto state_dict meta_train_forward edl_loss count_acc
     outer_update lr_scheduler_step self train_loader val_loader l0).
Local Abbreviation result_of :=
  (epoch_result state_dict meta_train_forward edl_loss count_acc outer_update
     lr_scheduler_step self).
Local Abbreviation view_of :=
  (epoch_result_view meta_train_forward edl_loss count_acc outer_update self).
Local Abbreviation train_run' :=
  (train_run meta_train_forward edl_loss count_acc outer_update self).
Local Abbreviation val_run' :=
  (val_run meta_train_forward edl_loss count_acc self).

(** With no epoch to run, the state is the initial one. *)
Lemma upto_nonpos (ls lq : list Z) (n : Z) :
  make_label_support self = Ok ls → make_label_query self = Ok lq →
  n ≤ 0 → upto n = Ok (mt_init self l0).
Proof.
  intros Hls Hlq Hn. unfold meta_train_upto. rewrite Hls, Hlq.
  cbn [mbind result_bind]. unfold py_range.
  replace (Z.to_nat (n + 1 - 1)) with 0%nat by lia. reflexivity.
Qed.

(** One more epoch. *)
Lemma upto_succ (ls lq : list Z) (n : nat) (st : @mt_state learner weights)
    (v : log_view) :
  make_label_support self = Ok ls → make_label_query self = Ok lq →
  upto (Z.of_nat n) = Ok st → st_trlog st = dict_of_view v →
  upto (Z.of_nat (S n))
  = Ok (result_of ls lq train_loader val_loader st v (Z.of_nat n + 1)).
Proof.
  intros Hls Hlq Hst Hv. unfold meta_train_upto in *.
  rewrite Hls, Hlq in *. cbn [mbind result_bind] in *.
  rewrite py_range_snoc, for_each_app, Hst. cbn [mbind result_bind for_each].
  erewrite epoch_step_eq by exact Hv. reflexivity.
Qed.

(** Induction along the run: a property of the state and of the log
    contents that holds initially and is kept by [epoch_result] holds after
    every number of epochs. *)
Lemma run_induction (ls lq : list Z)
    (P : nat → @mt_state learner weights → log_view → Prop) :
  make_label_support self = Ok ls → make_label_query self = Ok lq →
  P 0%nat (mt_init self l0) (view_init (self_args self)) →
  (∀ n st v,
      upto (Z.of_nat n) = Ok st → st_trlog st = dict_of_view v → P n st v →
      upto (Z.of_nat (S n))
      = Ok (result_of ls lq train_loader val_loader st v (Z.of_nat n + 1)) →
      P (S n) (result_of ls lq train_loader val_loader st v (Z.of_nat n + 1))
        (view_of ls lq train_loader val_loader (st_learner st) v
           (Z.of_nat n + 1))) →
  ∀ n, ∃ st v,
    upto (Z.of_nat n) = Ok st ∧ st_trlog st = dict_of_view v ∧ P n st v.
Proof.
  intros Hls Hlq H0 Hstep n.
  induction n as [|n (st & v & Hst & Hv & HP)].
  - exists (mt_init self l0), (view_init (self_args self)).
    split; [eapply upto_nonpos; eauto; lia|]. split; [reflexivity | exact H0].
  - pose proof (upto_succ ls lq n st v Hls Hlq Hst Hv) as Hnext.
    eexists _, _. split; [exact Hnext|].
    split; [|apply Hstep; assumption].
    unfold epoch_result, epoch_result_view.
    destruct (train_run _ _ _ _ _ _ _ _ _ _) as [[lf losses] accs].
    reflexivity.
Qed.

Hypothesis way_nonneg : 0 ≤ way (self_args self).
Hypothesis shot_nonneg : 0 ≤ shot (self_args self).
Hypothesis query_nonneg : 0 ≤ train_query (self_args self).

(** After every number of epochs: [max_acc] is not [nan] and not below its
    initial 0.0, and no recorded validation accuracy exceeds it.  Either no
    epoch improved on 0.0, and then [max_acc_epoch] is 0 and no "max_acc"
    file exists; or [max_acc_epoch] is a completed epoch, [max_acc] is that
    epoch's entry of [val_acc], and the "max_acc" file holds the parameters
    the model had in that epoch (after its training loop, before the
    scheduler step). *)
Theorem best_model_invariant (n : nat) :
  ∃ st max_acc max_acc_epoch val_acc,
    upto (Z.of_nat n) = Ok st
    ∧ st_trlog st !! "max_acc" = Some (PyFloat max_acc)
    ∧ st_trlog st !! "max_acc_epoch" = Some (PyInt max_acc_epoch)
    ∧ st_trlog st !! "val_acc" = Some (PyList val_acc)
    ∧ length val_acc = n
    ∧ max_acc ≠ NaN
    ∧ fgt (Finite 0) max_acc = false
    ∧ (∀ x, x ∈ val_acc → fgt x max_acc = false)
    ∧ ((max_acc_epoch = 0 ∧ max_acc = Finite 0
        ∧ disk (st_trace st) !! max_acc_path self = None)
       ∨ (1 ≤ max_acc_epoch ≤ Z.of_nat n
          ∧ val_acc !! Z.to_nat (max_acc_epoch - 1) = Some max_acc
          ∧ ∃ st_e lf,
              upto max_acc_epoch = Ok st_e
              ∧ st_learner st_e = lr_scheduler_step lf
              ∧ disk (st_trace st) !! max_acc_path self
                = Some (Checkpoint (state_dict lf)))).
Proof.
  destruct (label_tensors_exist self way_nonneg shot_nonneg query_nonneg)
    as (ls & lq & Hls & Hlq).
  destruct (run_induction ls lq
    (fun n st v =>
       length (lv_val_acc v) = n
       ∧ lv_max_acc v ≠ NaN
       ∧ fgt (Finite 0) (lv_max_acc v) = false
       ∧ (∀ x, x ∈ lv_val_acc v → fgt x (lv_max_acc v) = false)
       ∧ ((lv_max_acc_epoch v = 0 ∧ lv_max_acc v = Finite 0
           ∧ disk (st_trace st) !! max_acc_path self = None)
          ∨ (1 ≤ lv_max_acc_epoch v ≤ Z.of_nat n
             ∧ lv_val_acc v !! Z.to_nat (lv_max_acc_epoch v - 1)
               = Some (lv_max_acc v)
             ∧ ∃ st_e lf,
                 upto (lv_max_acc_epoch v) = Ok st_e
                 ∧ st_learner st_e = lr_scheduler_step lf
                 ∧ disk (st_trace st) !! max_acc_path self
                   = Some (Checkpoint (state_dict lf)))))
    Hls Hlq) with (n := n) as (st & v & Hst & Hv & HP).
  - (* initially *)
    cbn [view_init lv_val_acc lv_max_acc lv_max_acc_epoch mt_init st_trace
         length].
    split; [reflexivity|]. split; [discriminate|].
    split; [apply fgt_irrefl|].
    split; [intros x Hx; by apply elem_of_nil in Hx|].
    left. split; [reflexivity|]. split; [reflexivity|]. apply lookup_empty.
  - (* one more epoch *)
    clear n. intros n st v Hst Hv (Hlen & Hnan & Hzero & Hub & Hbest) Hnext.
    unfold epoch_result, epoch_result_view in *.
    destruct (train_run' ls lq (Z.of_nat n + 1) (st_learner st)
                (train_loader (Z.of_nat n + 1))) as [[lf losses] accs].
    destruct (val_run' ls lq (Z.of_nat n + 1) lf
                (val_loader (Z.of_nat n + 1))) as [vlosses vaccs].
    cbn [st_trace].
    rewrite disk_app, fold_left_app, disk_backward.
    unfold epoch_view in *.
    destruct (fgt (np_mean vaccs) (lv_max_acc v)) eqn:Hb.
    + cbn [view_append view_set_best lv_val_acc lv_max_acc lv_max_acc_epoch].
      split; [rewrite length_app; simpl; lia|].
      split; [apply (fgt_true_not_nan _ _ Hb)|].
      split; [eapply fgt_bound_trans; eassumption|].
      split.
      { intros x Hx. apply elem_of_app in Hx as [Hx|Hx].
        - eapply fgt_bound_trans; [apply Hub; exact Hx | exact Hb].
        - apply list_elem_of_singleton in Hx as ->. apply fgt_irrefl. }
      right. split; [lia|]. split.
      { replace (Z.to_nat (Z.of_nat n + 1 - 1)) with n by lia.
        rewrite lookup_app_r by lia. rewrite Hlen, Nat.sub_diag. reflexivity. }
      eexists _, lf.
      split; [replace (Z.of_nat n + 1) with (Z.of_nat (S n)) by lia;
              exact Hnext|].
      split; [reflexivity|].
      apply tail_disk_max_acc_improved.
      cbn [view_append view_set_best lv_max_acc] in Hb |- *. exact Hb.
    + cbn [view_append lv_val_acc lv_max_acc lv_max_acc_epoch].
      split; [rewrite length_app; simpl; lia|].
      split; [exact Hnan|]. split; [exact Hzero|].
      split.
      { intros x Hx. apply elem_of_app in Hx as [Hx|Hx].
        - apply Hub. exact Hx.
        - apply list_elem_of_singleton in Hx as ->. exact Hb. }
      rewrite tail_disk_max_acc_kept by exact Hb.
      destruct Hbest as [(He & Hm & Hd)|(He & Hl & Hf)].
      * left. repeat split; assumption.
      * right. split; [lia|]. split; [|exact Hf].
        rewrite lookup_app_l by lia. exact Hl.
  - destruct HP as (Hlen & Hnan & Hzero & Hub & Hbest).
    exists st, (lv_max_acc v), (lv_max_acc_epoch v), (lv_val_acc v).
    rewrite Hv.
    split; [exact Hst|].
    split; [apply dict_of_view_max_acc|].
    split; [apply dict_of_view_max_acc_epoch|].
    split; [apply dict_of_view_val_acc|].
    tauto.
Qed.

(** After [n] epochs the scheduler has stepped [n] times and the log has
    been saved [n] times, once per epoch; and there has been one backward
    pass with optimizer step for each training task of each epoch, none for
    a validation task. *)
Theorem effects_per_epoch (n : nat) :
  ∃ st,
    upto (Z.of_nat n) = Ok st
    ∧ count_events is_lr_step (st_trace st) = n
    ∧ count_events (is_save_to (trlog_path self)) (st_trace st) = n
    ∧ count_events is_backward (st_trace st)
      = sum_list_with (fun epoch => length (train_loader epoch))
          (py_range 1 (Z.of_nat n + 1)).
Proof.
  destruct (label_tensors_exist self way_nonneg shot_nonneg query_nonneg)
    as (ls & lq & Hls & Hlq).
  destruct (run_induction ls lq
    (fun n st v =>
       count_events is_lr_step (st_trace st) = n
       ∧ count_events (is_save_to (trlog_path self)) (st_trace st) = n
       ∧ count_events is_backward (st_trace st)
         = sum_list_with (fun epoch => length (train_loader epoch))
             (py_range 1 (Z.of_nat n + 1)))
    Hls Hlq) with (n := n) as (st & v & Hst & Hv & HP).
  - repeat split.
  - clear n. intros n st v Hst Hv (Hlr & Hlog & Hbw) _.
    unfold epoch_result.
    destruct (train_run' ls lq (Z.of_nat n + 1) (st_learner st)
                (train_loader (Z.of_nat n + 1)))
      as [[lf losses] accs] eqn:Htr.
    apply train_run_lengths in Htr as [Hlosses _].
    destruct (val_run' ls lq (Z.of_nat n + 1) lf
                (val_loader (Z.of_nat n + 1))) as [vlosses vaccs].
    cbn [st_trace]. rewrite !count_events_app.
    rewrite tail_count_lr_step, tail_count_trlog, tail_count_backward.
    rewrite count_backward_losses, !count_other_losses by reflexivity.
    rewrite Hlr, Hlog, Hbw, Hlosses.
    rewrite py_range_snoc, sum_list_with_app. simpl.
    repeat split; lia.
  - exists st. tauto.
Qed.

(** After [n] epochs there is a periodic checkpoint for exactly the epochs
    [e <= n] that are multiples of 20, each in its own file
    [epoch<e>.pth] holding the parameters the model had in epoch [e]; no
    later write touches it. *)
Theorem periodic_checkpoints (n : nat) :
  ∃ st,
    upto (Z.of_nat n) = Ok st
    ∧ ∀ e : Z,
        (1 ≤ e ≤ Z.of_nat n ∧ e `mod` 20 = 0 →
         ∃ st_e lf,
           upto e = Ok st_e
           ∧ st_learner st_e = lr_scheduler_step lf
           ∧ disk (st_trace st) !! epoch_ckpt_path self e
             = Some (Checkpoint (state_dict lf)))
        ∧ (¬ (1 ≤ e ≤ Z.of_nat n ∧ e `mod` 20 = 0) →
           disk (st_trace st) !! epoch_ckpt_path self e = None).
Proof.
  destruct (label_tensors_exist self way_nonneg shot_nonneg query_nonneg)
    as (ls & lq & Hls & Hlq).
  destruct (run_induction ls lq
    (fun n st v =>
       ∀ e : Z,
         (1 ≤ e ≤ Z.of_nat n ∧ e `mod` 20 = 0 →
          ∃ st_e lf,
            upto e = Ok st_e
            ∧ st_learner st_e = lr_scheduler_step lf
            ∧ disk (st_trace st) !! epoch_ckpt_path self e
              = Some (Checkpoint (state_dict lf)))
         ∧ (¬ (1 ≤ e ≤ Z.of_nat n ∧ e `mod` 20 = 0) →
            disk (st_trace st) !! epoch_ckpt_path self e = None))
    Hls Hlq) with (n := n) as (st & v & Hst & Hv & HP).
  - intros e. split; [lia|]. intros _. apply lookup_empty.
  - clear n. intros n st v Hst Hv IH Hnext e.
    unfold epoch_result in *.
    destruct (train_run' ls lq (Z.of_nat n + 1) (st_learner st)
                (train_loader (Z.of_nat n + 1))) as [[lf losses] accs].
    destruct (val_run' ls lq (Z.of_nat n + 1) lf
                (val_loader (Z.of_nat n + 1))) as [vlosses vaccs].
    cbn [st_trace]. rewrite disk_app, fold_left_app, disk_backward.
    destruct (IH e) as [IHyes IHno].
    destruct (decide (e = Z.of_nat n + 1)) as [->|Hne].
    + split.
      * intros [_ Hm]. eexists _, lf.
        split; [replace (Z.of_nat n + 1) with (Z.of_nat (S n)) by lia;
                exact Hnext|].
        split; [reflexivity|].
        apply tail_disk_epoch_written. exact Hm.
      * intros Hno. rewrite tail_disk_epoch_other by (right; lia).
        apply IHno. lia.
    + rewrite tail_disk_epoch_other by (left; exact Hne). split.
      * intros [He Hm]. apply IHyes. lia.
      * intros Hno. apply IHno. lia.
  - exists st. split; assumption.
Qed.

End TrainerRunMore.

(** ** Edge cases of [meta_train] *)



(** With [max_epoch <= 0] (and non-negative sizes) [meta_train] runs no
    epoch: it returns with the learner it was given and the initial log in
    memory, and writes no file, not even the log. *)
Theorem meta_train_without_epochs :
  ∀ (image learner weights : Type) (state_dict : learner → weights)
    meta_train_forward edl_loss count_acc outer_update lr_scheduler_step
    (self : MetaTrainer) (train_loader val_loader : Z → list (Task image))
    (l0 : learner),
    0 ≤ way (self_args self) → 0 ≤ shot (self_args self) →
    0 ≤ train_query (self_args self) → max_epoch (self_args self) ≤ 0 →
    ∃ st,
      meta_train state_dict meta_train_forward edl_loss count_acc outer_update
        lr_scheduler_step self train_loader val_loader l0 = Ok st
      ∧ st_learner st = l0
      ∧ st_trlog st = trlog_init self
      ∧ st_trace st = []
      ∧ disk (st_trace st) = ∅.
Proof.
  intros image learner weights state_dict meta_train_forward edl_loss
    count_acc outer_update lr_scheduler_step self train_loader val_loader l0
    Hw Hs Hq He.
  destruct (label_tensors_exist self Hw Hs Hq) as (ls & lq & Hls & Hlq).
  exists (mt_init self l0). split; [|repeat split].
  unfold meta_train. eapply upto_nonpos; eassumption.
Qed.

Lemma meta_train_without_epochs_witness :
  ∃ st,
    meta_train demo_state_dict demo_forward demo_loss demo_count_acc
      demo_update demo_lr_step (demo_trainer 2 1 1 0) demo_loader demo_loader
      tt = Ok st
    ∧ st_trace st = [].
Proof.
  destruct (meta_train_without_epochs nat unit unit demo_state_dict
              demo_forward demo_loss demo_count_acc demo_update demo_lr_step
              (demo_trainer 2 1 1 0) demo_loader demo_loader tt
              ltac:(simpl; lia) ltac:(simpl; lia) ltac:(simpl; lia)
              ltac:(simpl; lia)) as (st & H & _ & _ & Htr & _).
  exists st. split; assumption.
Defined.

(** ** The split of a batch into support and query *)

Lemma slice_partition {A} (x : list A) (p : Z) :
  slice_to x p ++ slice_from x p = x.
Proof. unfold slice_to, slice_from. apply take_drop. Qed.

(** Every item of a batch goes to the support set or to the query set, in
    order, whatever [shot] and [way] are.  For a batch of
    [way * (shot + q)] items the support has [shot * way] items and the query
    [way * q]; the label tensor handed to the loss is [label_query], of
    length [way * train_query], whether or not [q] equals [train_query] (the
    validation loop uses the same tensor for batches sampled with
    [val_query]). *)
Theorem episode_split :
  ∀ (image learner : Type) meta_train_forward edl_loss count_acc
    (self : MetaTrainer) (l : learner) (training : bool)
    (label_support label_query : list Z) (epoch : Z) (task : Task image),
    let ep :=
      run_episode meta_train_forward edl_loss count_acc self l training
        label_support label_query epoch task in
    let args := self_args self in
    ep_support ep ++ ep_query ep = task_data task
    ∧ lc_target (ep_call ep) = label_query
    ∧ ∀ q : Z,
        0 ≤ way args → 0 ≤ shot args → 0 ≤ q →
        Z.of_nat (length (task_data task)) = way args * (shot args + q) →
        Z.of_nat (length (ep_support ep)) = shot args * way args
        ∧ Z.of_nat (length (ep_query ep)) = way args * q
        ∧ (make_label_query self = Ok label_query →
           Z.of_nat (length (lc_target (ep_call ep)))
           = way args * train_query args).
Proof.
  intros image learner meta_train_forward edl_loss count_acc self l training
    label_support label_query epoch task ep args.
  split; [apply slice_partition|]. split; [reflexivity|].
  intros q Hw Hs Hq Hlen. subst ep. cbn [run_episode ep_support ep_query
    ep_call lc_target]. fold args.
  unfold slice_to, slice_from, slice_bound.
  destruct (shot args * way args <? 0) eqn:Hp; [nia|].
  rewrite length_take, length_drop.
  split; [nia|]. split; [nia|].
  intros Hlq. unfold make_label_query in Hlq. fold args in Hlq.
  destruct (decide (0 ≤ train_query args)) as [Htq|Htq].
  - destruct (arange_repeat_spec (way args) (train_query args) Hw Htq)
      as (lq' & Hlq' & Hlen' & _).
    rewrite Hlq' in Hlq. injection Hlq as <-. exact Hlen'.
  - exfalso. unfold torch_arange, tensor_repeat in Hlq.
    destruct (way args <? 0); [discriminate|]. cbn [mbind result_bind] in Hlq.
    destruct (train_query args <? 0) eqn:E; [discriminate | lia].
Qed.

Lemma episode_split_witness :
  let self := demo_trainer 2 1 1 1 in
  let ep :=
    run_episode demo_forward demo_loss demo_count_acc self tt false
      [0; 1] [0; 1] 1
      {| task_data := [1; 2; 3; 4; 5; 6; 7; 8]%nat; task_label := [] |} in
  Z.of_nat (length (ep_support ep)) = 1 * 2
  ∧ Z.of_nat (length (ep_query ep)) = 2 * 3
  ∧ (make_label_query self = Ok [0; 1] →
     Z.of_nat (length (lc_target (ep_call ep))) = 2 * 1).
Proof.
  intros self ep.
  exact (proj2 (proj2 (episode_split nat unit demo_forward demo_loss
                         demo_count_acc self tt false [0; 1] [0; 1] 1
                         {| task_data := [1; 2; 3; 4; 5; 6; 7; 8]%nat;
                            task_label := [] |}))
           3 ltac:(simpl; lia) ltac:(simpl; lia) ltac:(lia) eq_refl).
Defined.

(** ** The run invariants on the concrete run *)

Lemma best_model_invariant_witness :
  (0 ≤ way (self_args (demo_trainer 2 1 1 1))
   ∧ 0 ≤ shot (self_args (demo_trainer 2 1 1 1))
   ∧ 0 ≤ train_query (self_args (demo_trainer 2 1 1 1)))
  ∧ ∃ st max_acc,
      demo_run demo_forward 1 = Ok st
      ∧ st_trlog st !! "max_acc" = Some (PyFloat max_acc)
      ∧ max_acc ≠ NaN.
Proof.
  split; [simpl; lia|].
  destruct (best_model_invariant demo_state_dict demo_forward demo_loss
              demo_count_acc demo_update demo_lr_step (demo_trainer 2 1 1 1)
              demo_loader demo_loader tt
              ltac:(simpl; lia) ltac:(simpl; lia) ltac:(simpl; lia) 1%nat)
    as (st & max_acc & e & va & Hst & Hm & _ & _ & _ & Hnan & _).
  exists st, max_acc. repeat split; assumption.
Defined.

Lemma effects_per_epoch_witness :
  (0 ≤ way (self_args (demo_trainer 2 1 1 1))
   ∧ 0 ≤ shot (self_args (demo_trainer 2 1 1 1))
   ∧ 0 ≤ train_query (self_args (demo_trainer 2 1 1 1)))
  ∧ ∃ st,
      demo_run demo_forward 3 = Ok st
      ∧ count_events is_lr_step (st_trace st) = 3%nat.
Proof.
  split; [simpl; lia|].
  destruct (effects_per_epoch demo_state_dict demo_forward demo_loss
              demo_count_acc demo_update demo_lr_step (demo_trainer 2 1 1 1)
              demo_loader demo_loader tt
              ltac:(simpl; lia) ltac:(simpl; lia) ltac:(simpl; lia) 3%nat)
    as (st & Hst & Hlr & _).
  exists st. split; assumption.
Defined.

Lemma periodic_checkpoints_witness :
  (0 ≤ way (self_args (demo_trainer 2 1 1 1))
   ∧ 0 ≤ shot (self_args (demo_trainer 2 1 1 1))
   ∧ 0 ≤ train_query (self_args (demo_trainer 2 1 1 1)))
  ∧ ∃ st,
      demo_run demo_forward 3 = Ok st
      ∧ disk (st_trace st) !! epoch_ckpt_path (demo_trainer 2 1 1 1) 2 = None.
Proof.
  split; [simpl; lia|].
  destruct (periodic_checkpoints demo_state_dict demo_forward demo_loss
              demo_count_acc demo_update demo_lr_step (demo_trainer 2 1 1 1)
              demo_loader demo_loader tt
              ltac:(simpl; lia) ltac:(simpl; lia) ltac:(simpl; lia) 3%nat)
    as (st & Hst & Hall).
  exists st. split; [exact Hst|].
  apply (proj2 (Hall 2)). intros [_ H]. discriminate.
Defined.

(** ** More on [calculate_avg_std_ci95] *)

Lemma fdiv_zero_zero : fdiv (Finite 0) (Finite 0) = NaN.
Proof.
  simpl. destruct (Req_dec_T 0 0) as [_|H]; [|contradiction].
  unfold signed_inf. destruct (Rlt_dec 0 0); [lra | reflexivity].
Qed.









(** On the empty list all three statistics are [nan]. *)
Lemma calculate_avg_std_ci95_empty :
  calculate_avg_std_ci95 [] = (NaN, NaN, NaN).
Proof.
  unfold calculate_avg_std_ci95, np_std, np_mean, np_sum, of_len, np_sqrt.
  cbn [fold_left map length INR]. rewrite fdiv_zero_zero. reflexivity.
Qed.






(** ** More on the OOD evaluation loop *)

Section OodReports.

Context {image : Type}.
Variable get_task_data :
  Task image → EvalArgs → list image * list Z * list image * list Z.
Variable ood_forward :
  list image → list Z → list image → list image → tensor * tensor.
Variable count_acc : tensor → list Z → pyfloat.
Variable compute_differential_entropy : tensor → list pyfloat.
Variable compute_mutual_information : tensor → list pyfloat.
Variable compute_precision : tensor → list pyfloat.
Variable ROC_OOD :
  list pyfloat → list pyfloat → list pyfloat → list Z →
  result (pyfloat * pyfloat * pyfloat).
Variable args : EvalArgs.

Local Abbreviation step :=
  (ood_step get_task_data ood_forward count_acc compute_differential_entropy
     compute_mutual_information compute_precision ROC_OOD args).
Local Abbreviation eval :=
  (ood_eval get_task_data ood_forward count_acc compute_differential_entropy
     compute_mutual_information compute_precision ROC_OOD args).

(** What the report of one iteration says about its item. *)
Local Abbreviation describes n item r :=
  (r_task_id r = fst item
   ∧ r_num_tasks r = n
   ∧ r_all_labels r
     = replicate (length (snd (get_task_data (fst (snd item)) args))) 0
       ++ replicate (length (snd (get_task_data (snd (snd item)) args))) 1
   ∧ ROC_OOD (r_all_diff_ents r) (r_all_mis r) (r_all_precs r)
       (r_all_labels r)
     = Ok (r_auroc_Dent r, r_auroc_MI r, r_auroc_precision r)).

Lemma zeros_like_replicate (t : list Z) :
  zeros_like t = replicate (length t) 0.
Proof. induction t as [|x t IH]; simpl; [reflexivity | rewrite <- IH; reflexivity]. Qed.

Lemma ones_like_replicate (t : list Z) :
  ones_like t = replicate (length t) 1.
Proof. induction t as [|x t IH]; simpl; [reflexivity | rewrite <- IH; reflexivity]. Qed.

Lemma get_uncertainty_score_in_dist (logits : tensor) :
  get_uncertainty_score compute_differential_entropy
    compute_mutual_information compute_precision logits 0
  = Ok (compute_differential_entropy logits,
        compute_mutual_information logits, compute_precision logits).
Proof. reflexivity. Qed.

Lemma get_uncertainty_score_ood (logits : tensor) :
  get_uncertainty_score compute_differential_entropy
    compute_mutual_information compute_precision logits 1
  = Ok (compute_differential_entropy logits,
        compute_mutual_information logits, compute_precision logits).
Proof. reflexivity. Qed.

Lemma ood_step_describes (n : Z) (st st' : ood_state)
    (item : Z * (Task image * Task image)) :
  step n st item = Ok st' →
  ∃ r, reports st' = reports st ++ [r] ∧ describes n item r.
Proof.
  destruct item as [task_id [task ood_task]]. unfold ood_step.
  cbn [fst snd].
  destruct (get_task_data task args) as [[[ds ls] dq] lq].
  destruct (get_task_data ood_task args) as [[[ods ols] odq] olq].
  destruct (ood_forward ds ls dq odq) as [evidence ood_evidence].
  rewrite get_uncertainty_score_in_dist, get_uncertainty_score_ood.
  cbn [mbind result_bind].
  destruct (ROC_OOD _ _ _ _) as [[[a b] c]|e] eqn:Hroc;
    cbn [mbind result_bind]; [|discriminate].
  intros H. injection H as <-. eexists. split; [reflexivity|].
  cbn [r_task_id r_num_tasks r_all_labels r_all_diff_ents r_all_mis
       r_all_precs r_auroc_Dent r_auroc_MI r_auroc_precision snd].
  rewrite <- zeros_like_replicate, <- ones_like_replicate.
  repeat split. exact Hroc.
Qed.


Lemma ood_loop_describes (n : Z) (items : list (Z * (Task image * Task image)))
    (st st' : ood_state) :
  for_each (step n) st items = Ok st' →
  ∃ rs, reports st' = reports st ++ rs
        ∧ Forall2 (fun item r => describes n item r) items rs.
Proof.
  revert st. induction items as [|item items IH]; intros st Hrun.
  - simpl in Hrun. injection Hrun as <-. exists [].
    rewrite app_nil_r. split; [reflexivity | constructor].
  - simpl in Hrun. destruct (step n st item) as [st1|e] eqn:Hstep;
      simpl in Hrun; [|discriminate].
    apply ood_step_describes in Hstep as (r & Hr & Hdesc).
    destruct (IH st1 Hrun) as (rs & Hrs & Hall).
    exists (r :: rs). split.
    + rewrite Hrs, Hr, <- app_assoc. reflexivity.
    + constructor; assumption.
Qed.


Lemma enumerate1_lookup {A} (xs : list A) (k : nat) (i : Z) (x : A) :
  enumerate1 xs !! k = Some (i, x) → i = Z.of_nat k + 1 ∧ xs !! k = Some x.
Proof.
  unfold enumerate1. intros H.
  apply lookup_zip_with_Some in H as (i' & x' & Heq & Hi & Hx).
  injection Heq as -> ->. split; [|exact Hx].
  rewrite py_range_lookup in Hi.
  - injection Hi as <-. lia.
  - apply lookup_lt_Some in Hx. lia.
Qed.

(** The [k]-th report (counted from 0) belongs to the [k]-th task of each
    loader: its task number is [k + 1], the total it prints is
    [len(dataloader)] also when the OOD loader is shorter, its labels are one
    0 per in-distribution query label followed by one 1 per OOD query label,
    and its AUROC values are what [ROC_OOD] returned for its scores and
    labels. *)
Theorem ood_report_of_task (dataloader ood_dataloader : list (Task image))
    (st : ood_state) (k : nat) (r : task_report) :
  eval dataloader ood_dataloader = Ok st →
  reports st !! k = Some r →
  ∃ task ood_task,
    dataloader !! k = Some task
    ∧ ood_dataloader !! k = Some ood_task
    ∧ r_task_id r = Z.of_nat k + 1
    ∧ r_num_tasks r = Z.of_nat (length dataloader)
    ∧ r_all_labels r
      = replicate (length (snd (get_task_data task args))) 0
        ++ replicate (length (snd (get_task_data ood_task args))) 1
    ∧ ROC_OOD (r_all_diff_ents r) (r_all_mis r) (r_all_precs r)
        (r_all_labels r)
      = Ok (r_auroc_Dent r, r_auroc_MI r, r_auroc_precision r).
Proof.
  unfold ood_eval. intros Hrun Hk.
  apply ood_loop_describes in Hrun as (rs & Hrs & Hall).
  cbn [ood_init reports app] in Hrs. rewrite Hrs in Hk.
  destruct (Forall2_lookup_r _ _ _ _ _ Hall Hk)
    as ([i [task ood_task]] & Hitem & Hid & Hn & Hlabels & Hroc).
  cbn [fst snd] in Hid, Hlabels.
  apply enumerate1_lookup in Hitem as [-> Hpair].
  apply lookup_zip_with_Some in Hpair as (t & o & Heq & Ht & Ho).
  injection Heq as -> ->.
  exists t, o. repeat split; assumption.
Qed.


End OodReports.

Lemma ood_report_of_task_witness :
  ∃ st r task ood_task,
    demo_ood_eval [full_task; no_query_task] [full_task] = Ok st
    ∧ reports st !! 0%nat = Some r
    ∧ [full_task; no_query_task] !! 0%nat = Some task
    ∧ [full_task] !! 0%nat = Some ood_task
    ∧ r_task_id r = 1 ∧ r_num_tasks r = 2
    ∧ r_all_labels r = [0; 0; 1; 1].
Proof.
  destruct (demo_ood_eval [full_task; no_query_task] [full_task])
    as [st|e] eqn:Hrun; [|exfalso; vm_compute in Hrun; discriminate].
  destruct (reports st !! 0%nat) as [r|] eqn:Hr.
  2:{ exfalso. vm_compute in Hrun. injection Hrun as <-. discriminate. }
  destruct (ood_report_of_task demo_get_task_data demo_ood_forward
              demo_count_acc demo_metric demo_metric demo_metric demo_ROC_OOD
              demo_eval_args _ _ st 0%nat r Hrun Hr)
    as (task & ood_task & Ht & Ho & Hid & Hn & Hl & _).
  exists st, r, task, ood_task.
  injection Ht as <-. injection Ho as <-.
  repeat split; try reflexivity; assumption.
Defined.


(** ** The DropBlock schedule of [BasicBlock_MTL.forward] *)












